(** * Attendance tracker (src/app/page.tsx): aggregation, drill-downs, selection

    A shallow embedding of the data-processing code of [HomePage]:
    the chart-data effect, the click handler, and the two memoised
    drill-down views, together with the fragment of the JavaScript
    platform they call (Number arithmetic in IEEE 754 binary64,
    [toFixed], [parseFloat], [parseInt], [substring], [find],
    [includes], [map] and [sort]); then the two requests of the first
    effect, the conditions under which each part of the page is
    rendered, and sequences of user events. *)

From Stdlib Require Import ZArith List String Ascii Bool Lia.
From Stdlib Require Import Permutation Sorted.
From Stdlib Require Import DecimalString DecimalPos DecimalZ.
From Stdlib Require Import SpecFloat.
Import ListNotations.

Local Open Scope string_scope.
Local Open Scope Z_scope.

(* ===================================================================== *)
(** * The JavaScript platform functions used by the page *)
(* ===================================================================== *)

Module JS.

(** ** Strings *)

(** [drop n s]: the characters of [s] from index [n] on. *)
Fixpoint drop (n : nat) (s : string) : string :=
  match n, s with
  | O, _ => s
  | S _, EmptyString => EmptyString
  | S n', String _ s' => drop n' s'
  end.

(** [String.prototype.substring(start)] with [end] undefined: both ends
    are clamped to [0, len], swapped when out of order, and the code
    units in between are returned.  It never throws. *)
Definition substring (start : Z) (s : string) : string :=
  let len := Z.of_nat (String.length s) in
  let finalStart := Z.min (Z.max start 0) len in
  let finalEnd := len in
  let from := Z.min finalStart finalEnd in
  let to := Z.max finalStart finalEnd in
  String.substring (Z.to_nat from) (Z.to_nat (to - from)) s.

(** A character of a string stands for one UTF-16 code unit below 256
    (U+0000 to U+00FF); strings with other code units are outside the
    model.  The page's own strings (dates, decimal ids) are ASCII. *)

(** ASCII decimal digits. *)
Definition digit_of_ascii (c : ascii) : option Z :=
  let n := Z.of_N (N_of_ascii c) in
  if (48 <=? n) && (n <=? 57) then Some (n - 48) else None.

(** The white space and line terminators that [parseInt] and
    [parseFloat] skip, among the code units below 256: TAB, LF, VT, FF,
    CR, SP and NBSP (U+00A0).  The others (U+1680, U+2000 to U+200A,
    U+2028, U+2029, U+202F, U+205F, U+3000, U+FEFF) lie above 255. *)
Definition is_white_space (c : ascii) : bool :=
  let n := Z.of_N (N_of_ascii c) in
  ((9 <=? n) && (n <=? 13)) || (n =? 32) || (n =? 160).

Fixpoint trim_start (s : string) : string :=
  match s with
  | String c s' => if is_white_space c then trim_start s' else s
  | EmptyString => s
  end.

(** The longest prefix of decimal digits, and what follows it. *)
Fixpoint digits_prefix (s : string) : list Z * string :=
  match s with
  | String c s' =>
      match digit_of_ascii c with
      | Some d => let '(ds, rest) := digits_prefix s' in (d :: ds, rest)
      | None => ([], s)
      end
  | EmptyString => ([], s)
  end.

Definition value_of_digits (ds : list Z) : Z :=
  fold_left (fun acc d => 10 * acc + d) ds 0.

(** [parseInt(s, 10)]: leading white space is skipped, an optional sign
    is read, then the longest run of decimal digits; [None] stands for
    [NaN] (no digit found).  Whatever follows the digits is ignored. *)
Definition parseInt (s : string) : option Z :=
  let s1 := trim_start s in
  let '(neg, s2) :=
    match s1 with
    | String "-" r => (true, r)
    | String "+" r => (false, r)
    | _ => (false, s1)
    end in
  match digits_prefix s2 with
  | ([], _) => None
  | (ds, _) => Some (if neg then - value_of_digits ds else value_of_digits ds)
  end.

(** The decimal digits of an integer, with a leading minus sign when
    negative. *)
Definition decimal (z : Z) : string :=
  NilZero.string_of_int (Z.to_int z).

Definition length_Z (s : string) : Z := Z.of_nat (String.length s).

(** ** Numbers: IEEE 754 binary64 *)

Definition prec : Z := 53.
Definition emax : Z := 1024.

Definition double : Type := spec_float.

(** An integer as a Number (exact below 2^53, rounded to nearest above). *)
Definition of_Z (z : Z) : double := binary_normalize prec emax z 0 false.

(** [Number.isSafeInteger] on an integer: below 2^53 in magnitude. *)
Definition isSafeInteger (z : Z) : bool := Z.abs z <? 2 ^ 53.

(** [Number.prototype.toString()] / template-literal conversion of an
    integer-valued Number ([Number::toString], radix 10).

    The standard prints the digits of the integer [s] with the fewest
    digits [k] for which [s * 10^(n - k)] still reads back as the
    Number, the closest such [s] when there are several; followed by
    [n - k] zeros when [n <= 21], in exponent notation otherwise.

    Every integer below 2^53 in magnitude is a Number, and no shorter
    digit string reads back as it than its own digits without their
    trailing zeros: it prints as its exact decimal digits.  From 2^53
    on, the Number nearest to [z] is printed (what a JSON body holding
    [z] is parsed to), and the search is carried out: [shortest] tries
    [k = 1, 2, ...] with the multiples of [10^(d - k)] on either side of
    the value ([d] the number of its digits); 17 digits always
    suffice. *)
Fixpoint shortest (fuel : nat) (k : Z) (x : Z) (d : Z) : Z :=
  match fuel with
  | O => x
  | S fuel' =>
      let scale := 10 ^ (d - k) in
      let lo := x / scale * scale in
      let hi := lo + scale in
      let reads v := SFeqb (of_Z v) (of_Z x) in
      match reads lo, reads hi with
      | true, true =>
          if x - lo <? hi - x then lo
          else if hi - x <? x - lo then hi
          else if Z.even (lo / scale) then lo else hi
      | true, false => lo
      | false, true => hi
      | false, false => shortest fuel' (k + 1) x d
      end
  end.

Fixpoint strip_zeros (s : string) : string :=
  match s with
  | EmptyString => EmptyString
  | String c s' =>
      match strip_zeros s' with
      | EmptyString => if Ascii.eqb c "0" then EmptyString else String c EmptyString
      | r => String c r
      end
  end.

(** [v] in exponent notation: first digit, the further significant
    digits after a point when there are any, then [e+] and [n - 1]. *)
Definition exponent_notation (v : Z) : string :=
  let ds := decimal v in
  match strip_zeros ds with
  | String c EmptyString => String c ("e+" ++ decimal (length_Z ds - 1))
  | String c r => String c ("." ++ r ++ "e+" ++ decimal (length_Z ds - 1))
  | EmptyString => ds
  end.

Definition toString (z : Z) : string :=
  if isSafeInteger z then decimal z
  else
    let sign := if z <? 0 then "-" else "" in
    match of_Z (Z.abs z) with
    | S754_finite _ m e =>
        let x := Zpos m * 2 ^ e in
        let v := shortest 17 1 x (length_Z (decimal x)) in
        sign ++ (if length_Z (decimal v) <=? 21 then decimal v
                 else exponent_notation v)
    | _ => sign ++ "Infinity"
    end.

Definition div : double -> double -> double := SFdiv prec emax.
Definition mul : double -> double -> double := SFmul prec emax.
Definition leb : double -> double -> bool := SFleb.

(** The Number nearest to the rational [num / den], [0 <= num], ties to
    even, with the sign [neg]: the Number value of a decimal literal. *)
Definition of_ratio (neg : bool) (num : Z) (den : positive) : double :=
  match num with
  | Zpos n => SFdiv prec emax (S754_finite neg n 0) (S754_finite false den 0)
  | _ => S754_zero neg
  end.

(** [toFixed(1)] on the magnitude [m * 2^e]: the integer [n] for which
    [n / 10 - m * 2^e] is as close to zero as possible, the larger [n]
    when there are two. *)
Definition tenths (m : positive) (e : Z) : Z :=
  if 0 <=? e then 10 * Zpos m * 2 ^ e
  else (20 * Zpos m + 2 ^ (- e)) / 2 ^ (1 - e).

Definition ge_1e21 (m : positive) (e : Z) : bool :=
  if 0 <=? e then 10 ^ 21 <=? Zpos m * 2 ^ e
  else 10 ^ 21 * 2 ^ (- e) <=? Zpos m.

(** [Number.prototype.toFixed(1)].  Non-finite values print as their
    names; a finite value below 10^21 prints as its nearest tenth: the
    exact decimal digits of [n] with a point before the last one.  From 10^21 on the standard switches
    to the exponent notation of [Number::toString]; that branch is not
    modelled and is reported as [None]. *)
Definition toFixed1 (x : double) : option string :=
  match x with
  | S754_nan => Some "NaN"
  | S754_infinity false => Some "Infinity"
  | S754_infinity true => Some "-Infinity"
  | S754_zero _ => Some "0.0"
  | S754_finite s m e =>
      if ge_1e21 m e then None
      else
        let n := tenths m e in
        Some ((if s then "-" else "") ++ decimal (n / 10) ++ "."
                ++ decimal (n mod 10))
  end.

(** [parseFloat]: leading white space is skipped, then the longest
    prefix of the form [sign? (Infinity | digits (. digits)?)] is read
    and converted to the nearest Number; [NaN] when there is no such
    prefix.  An exponent part is not recognised ([toFixed] below 10^21
    never prints one). *)
Definition parseFloat (s : string) : double :=
  let s1 := trim_start s in
  let '(neg, s2) :=
    match s1 with
    | String "-" r => (true, r)
    | String "+" r => (false, r)
    | _ => (false, s1)
    end in
  if String.prefix "Infinity" s2 then S754_infinity neg
  else
    let '(ip, rest) := digits_prefix s2 in
    let fp :=
      match rest with
      | String "." r => fst (digits_prefix r)
      | _ => []
      end in
    match (ip ++ fp)%list with
    | [] => S754_nan
    | ds => of_ratio neg (value_of_digits ds)
              (Z.to_pos (10 ^ Z.of_nat (List.length fp)))
    end.

(** ** Arrays *)

(** [Array.prototype.sort(cmp)]: the sort is stable, and [a] is placed
    after [b] only when [cmp a b > 0].  A stable insertion sort; for a
    consistent comparator every stable sort returns this same array. *)
Section Sort.
Context {A : Type} (cmp : A -> A -> Z).

Fixpoint insert (x : A) (l : list A) : list A :=
  match l with
  | [] => [x]
  | y :: l' => if 0 <? cmp x y then y :: insert x l' else x :: l
  end.

Definition sort (l : list A) : list A := fold_right insert [] l.
End Sort.

End JS.

(* ===================================================================== *)
(** * The page: data types, state, effect, handlers, derived views *)
(* ===================================================================== *)

(** Student ([id], [name]); an id is a Number holding an integer. *)
Record Student := { id : Z; name : string }.

(** Raw attendance data: a date and the ids of the students present. *)
Record AttendanceRawData := { date : string; present : list Z }.

(** Processed attendance for the chart.  [chart_date] is the [date]
    field of the source record ("MM-DD" for display). *)
Record ProcessedChartDataPoint := {
  chart_date : string;
  originalDate : string;
  attendancePercentage : JS.double;
  presentStudentIds : list Z
}.

(** One row of a student's history: the [{date, status}] object literal. *)
Record AttendanceRecord := { record_date : string; status : string }.

(** The component state held by the [useState] hooks. *)
Record State := {
  allStudents : list Student;
  rawAttendance : list AttendanceRawData;
  processedChartData : list ProcessedChartDataPoint;
  loadingStudents : bool;
  loadingAttendance : bool;
  error : option string;
  selectedBarDate : option string;
  selectedStudentId : string
}.

Definition initialState : State :=
  {| allStudents := []; rawAttendance := []; processedChartData := [];
     loadingStudents := true; loadingAttendance := true; error := None;
     selectedBarDate := None; selectedStudentId := "" |}.

Definition setProcessedChartData (v : list ProcessedChartDataPoint) (st : State) : State :=
  {| allStudents := allStudents st; rawAttendance := rawAttendance st;
     processedChartData := v;
     loadingStudents := loadingStudents st;
     loadingAttendance := loadingAttendance st; error := error st;
     selectedBarDate := selectedBarDate st;
     selectedStudentId := selectedStudentId st |}.

Definition setSelectedBarDate (v : option string) (st : State) : State :=
  {| allStudents := allStudents st; rawAttendance := rawAttendance st;
     processedChartData := processedChartData st;
     loadingStudents := loadingStudents st;
     loadingAttendance := loadingAttendance st; error := error st;
     selectedBarDate := v;
     selectedStudentId := selectedStudentId st |}.

Definition setSelectedStudentId (v : string) (st : State) : State :=
  {| allStudents := allStudents st; rawAttendance := rawAttendance st;
     processedChartData := processedChartData st;
     loadingStudents := loadingStudents st;
     loadingAttendance := loadingAttendance st; error := error st;
     selectedBarDate := selectedBarDate st;
     selectedStudentId := v |}.

(** [xs.length] as a Number. *)
Definition length_of {A : Type} (xs : list A) : Z := Z.of_nat (List.length xs).

(** ** Data processing for the chart (the second [useEffect]) *)

(** [totalStudents > 0 ? (log.present.length / totalStudents) * 100 : 0] *)
Definition percentage (totalStudents : Z) (log : AttendanceRawData) : JS.double :=
  if 0 <? totalStudents
  then JS.mul (JS.div (JS.of_Z (length_of (present log))) (JS.of_Z totalStudents))
              (JS.of_Z 100)
  else JS.of_Z 0.

(** [parseFloat(percentage.toFixed(1))].  Where [toFixed] falls back to
    [Number::toString], [parseFloat] reads the same Number back. *)
Definition roundToOneDecimal (p : JS.double) : JS.double :=
  match JS.toFixed1 p with
  | Some s => JS.parseFloat s
  | None => p
  end.

Definition chartPoint (totalStudents : Z) (log : AttendanceRawData)
  : ProcessedChartDataPoint :=
  {| chart_date := JS.substring 5 (date log);
     originalDate := date log;
     attendancePercentage := roundToOneDecimal (percentage totalStudents log);
     presentStudentIds := present log |}.

Definition chartData (students : list Student) (logs : list AttendanceRawData)
  : list ProcessedChartDataPoint :=
  let totalStudents := length_of students in
  map (chartPoint totalStudents) logs.

Definition chartDataEffect (st : State) : State :=
  if (0 <? length_of (allStudents st)) && (0 <? length_of (rawAttendance st))
  then setProcessedChartData (chartData (allStudents st) (rawAttendance st)) st
  else st.

(** ** Event handlers *)

(** The argument of the chart's click callback: [data.activePayload] is
    an optional array of items whose [payload] is a chart point. *)
Record PayloadItem := { payload : ProcessedChartDataPoint }.
Record ChartEvent := { activePayload : option (list PayloadItem) }.

(** [processedChartData[index]]: [undefined] outside the array. *)
Definition at_index {A : Type} (xs : list A) (index : Z) : option A :=
  if index <? 0 then None else nth_error xs (Z.to_nat index).

Definition handleBarClick (data : option ChartEvent) (index : Z) (st : State) : State :=
  match data with
  | Some {| activePayload := Some (item :: _) |} =>
      setSelectedBarDate (Some (originalDate (payload item))) st
  | _ =>
      match at_index (processedChartData st) index with
      | Some clickedData => setSelectedBarDate (Some (originalDate clickedData)) st
      | None => st
      end
  end.

(** The [onChange] handler of the student [select]. *)
Definition handleStudentChange (value : string) (st : State) : State :=
  setSelectedStudentId value st.

(** ** Memoised derived data *)

(** [!selectedBarDate]: [null] and the empty string are both falsy. *)
Definition falsy_date (d : option string) : bool :=
  match d with
  | Some (String _ _) => false
  | _ => true
  end.

(** [r.date === selectedBarDate], the right-hand side possibly [null]. *)
Definition date_is (selected : option string) (r : AttendanceRawData) : bool :=
  match selected with
  | Some d => String.eqb (date r) d
  | None => false
  end.

(** The callback mapped over [log.present]: the student's name, or the
    fallback label when [find] returns [undefined]. *)
Definition studentLabel (students : list Student) (i : Z) : string :=
  match List.find (fun s => id s =? i) students with
  | Some student => name student
  | None => "ID: " ++ JS.toString i
  end.

Definition presentStudentsOnSelectedDate (st : State) : list string :=
  if falsy_date (selectedBarDate st) || (length_of (allStudents st) =? 0) then []
  else
    match List.find (date_is (selectedBarDate st)) (rawAttendance st) with
    | None => []
    | Some log => map (studentLabel (allStudents st)) (present log)
    end.

(** [log.present.includes(studentIdNum)]; [NaN] is in no array of ids. *)
Definition includes (ids : list Z) (n : option Z) : bool :=
  match n with
  | Some k => existsb (Z.eqb k) ids
  | None => false
  end.

Definition historyRecord (studentIdNum : option Z) (log : AttendanceRawData)
  : AttendanceRecord :=
  {| record_date := JS.substring 5 (date log);
     status := if includes (present log) studentIdNum then "Present" else "Absent" |}.

Section LocaleCompare.

(** [String.prototype.localeCompare] is the host's collation: negative,
    zero or positive.  It is a parameter of the development. *)
Variable localeCompare : string -> string -> Z.

Definition studentSpecificAttendanceData (st : State) : list AttendanceRecord :=
  if (selectedStudentId st =? "")%string || (length_of (rawAttendance st) =? 0) then []
  else
    let studentIdNum := JS.parseInt (selectedStudentId st) in
    JS.sort (fun a b => localeCompare (record_date a) (record_date b))
            (map (historyRecord studentIdNum) (rawAttendance st)).

End LocaleCompare.

(** Code-unit order as a collation, for running examples. *)
Definition codeUnitCompare (a b : string) : Z :=
  match String.compare a b with
  | Lt => -1
  | Eq => 0
  | Gt => 1
  end.

(* ===================================================================== *)
(** * Vocabulary of the properties *)
(* ===================================================================== *)

(** Replacing the logs, as a completed fetch does. *)
Definition setRawAttendance (v : list AttendanceRawData) (st : State) : State :=
  {| allStudents := allStudents st; rawAttendance := v;
     processedChartData := processedChartData st;
     loadingStudents := loadingStudents st;
     loadingAttendance := loadingAttendance st; error := error st;
     selectedBarDate := selectedBarDate st;
     selectedStudentId := selectedStudentId st |}.

(** ** Date shapes *)

Definition is_digit (c : ascii) : bool :=
  match JS.digit_of_ascii c with
  | Some _ => true
  | None => false
  end.

(** "MM-DD": two digits, a hyphen, two digits. *)
Definition month_day (s : string) : bool :=
  match s with
  | String m1 (String m2 (String "-" (String d1 (String d2 EmptyString)))) =>
      is_digit m1 && is_digit m2 && is_digit d1 && is_digit d2
  | _ => false
  end.

(** "YYYY-MM-DD": four digits, a hyphen, then "MM-DD". *)
Definition iso_date (s : string) : bool :=
  match s with
  | String y1 (String y2 (String y3 (String y4 (String "-" rest)))) =>
      is_digit y1 && is_digit y2 && is_digit y3 && is_digit y4 && month_day rest
  | _ => false
  end.

(** ** A student's history *)

(** The digits of a decimal numeral, most significant first. *)
Fixpoint digits_of_uint (d : Decimal.uint) : list Z :=
  match d with
  | Decimal.Nil => []
  | Decimal.D0 d => 0 :: digits_of_uint d
  | Decimal.D1 d => 1 :: digits_of_uint d
  | Decimal.D2 d => 2 :: digits_of_uint d
  | Decimal.D3 d => 3 :: digits_of_uint d
  | Decimal.D4 d => 4 :: digits_of_uint d
  | Decimal.D5 d => 5 :: digits_of_uint d
  | Decimal.D6 d => 6 :: digits_of_uint d
  | Decimal.D7 d => 7 :: digits_of_uint d
  | Decimal.D8 d => 8 :: digits_of_uint d
  | Decimal.D9 d => 9 :: digits_of_uint d
  end.

(** The selected student's id occurs in the ids of [log]. *)
Definition occurs (selected : string) (log : AttendanceRawData) : Prop :=
  exists k, JS.parseInt selected = Some k /\ In k (present log).

(** What a history record says about the log entry it was made from. *)
Definition records (selected : string) (r : AttendanceRecord)
    (log : AttendanceRawData) : Prop :=
  record_date r = JS.substring 5 (date log)
  /\ (status r = "Present" <-> occurs selected log)
  /\ (status r = "Absent" <-> ~ occurs selected log).

(** Ascending code-unit order of the display dates. *)
Definition date_order (a b : AttendanceRecord) : Prop :=
  (record_date a <=? record_date b)%string = true.

(** A collation that compares without regard to case first, as the
    hosts' default collations do ("a" before "B"), and puts the lower
    case first among strings that differ in case only.  On strings
    without letters it is the code-unit order. *)
Definition fold_case (c : ascii) : ascii :=
  let n := N_of_ascii c in
  if ((65 <=? n) && (n <=? 90))%N then ascii_of_N (n + 32) else c.

Fixpoint fold_string (s : string) : string :=
  match s with
  | EmptyString => EmptyString
  | String c s' => String (fold_case c) (fold_string s')
  end.

Definition caseFoldCompare (a b : string) : Z :=
  match String.compare (fold_string a) (fold_string b) with
  | Lt => -1
  | Eq => codeUnitCompare b a
  | Gt => 1
  end.

(** ** One-decimal percentages *)

(** The Number written with one decimal as [n / 10]. *)
Definition oneDecimal (n : Z) : JS.double := JS.of_ratio false n 10.

(** [nearest_tenth x n], for a Number [x >= 0]: [n / 10 - x] is as close
    to zero as possible, and [n] is the larger one when there are two
    such integers; that is, [2 n - 1 <= 20 x < 2 n + 1].  This is the
    rounding of [x] to one decimal with halves going up. *)
Definition nearest_tenth (x : JS.double) (n : Z) : Prop :=
  match x with
  | S754_zero _ => n = 0
  | S754_finite false m e =>
      (2 * n - 1) * 2 ^ Z.max (- e) 0 <= 20 * (Zpos m * 2 ^ Z.max e 0)
      /\ 20 * (Zpos m * 2 ^ Z.max e 0) < (2 * n + 1) * 2 ^ Z.max (- e) 0
  | _ => False
  end.

(** [not_below x num den], for a Number [x >= 0] and [0 < den]: [x] is at
    least the rational [num / den]. *)
Definition not_below (x : JS.double) (num den : Z) : Prop :=
  match x with
  | S754_zero _ => num <= 0
  | S754_finite false m e =>
      num * 2 ^ Z.max (- e) 0 <= Zpos m * 2 ^ Z.max e 0 * den
  | _ => False
  end.

(** [P / R * 100] rounded half-up to one decimal, counted in tenths:
    the integer part of [1000 * P / R + 1 / 2]. *)
Definition half_up_tenths (P R : Z) : Z := (2000 * P + R) / (2 * R).

Definition double_eqb (x y : JS.double) : bool :=
  match x, y with
  | S754_zero a, S754_zero b => Bool.eqb a b
  | S754_infinity a, S754_infinity b => Bool.eqb a b
  | S754_nan, S754_nan => true
  | S754_finite a m e, S754_finite b m' e' =>
      Bool.eqb a b && Pos.eqb m m' && Z.eqb e e'
  | _, _ => false
  end.

(** What is checked, by evaluation, of each tenth from 0.0 to 100.0:
    [parseFloat] reads its [toFixed] digits back as the nearest Number,
    and that Number lies between 0 and 100. *)
Definition tenth_ok (n : Z) : bool :=
  double_eqb (JS.parseFloat (JS.decimal (n / 10) ++ "." ++ JS.decimal (n mod 10)))
             (oneDecimal n)
  && JS.leb (JS.of_Z 0) (oneDecimal n)
  && JS.leb (oneDecimal n) (JS.of_Z 100).

(** ** Rounding records *)

(** [located mrs num den]: the record [mrs] describes the rational
    [num / den]: its mantissa is the integer part, its round bit says
    whether the fraction reaches one half, its sticky bit whether the
    fraction is neither zero nor one half. *)
Definition located (mrs : shr_record) (num den : Z) : Prop :=
  0 < den
  /\ shr_m mrs * den <= num < (shr_m mrs + 1) * den
  /\ (shr_r mrs = true <-> den <= 2 * (num - shr_m mrs * den))
  /\ (shr_s mrs = false <->
      num = shr_m mrs * den \/ 2 * (num - shr_m mrs * den) = den).

(** ** Sample data for running the model *)

Definition sampleStudents : list Student :=
  [ {| id := 1; name := "Ann" |}; {| id := 2; name := "Bob" |};
    {| id := 3; name := "Cy" |}; {| id := 4; name := "Di" |} ].

Definition sampleLogs : list AttendanceRawData :=
  [ {| date := "2025-05-03"; present := [1; 3] |};
    {| date := "2025-05-01"; present := [2; 7; 99] |};
    {| date := "2025-05-02"; present := [3; 4] |} ].

Definition loaded (students : list Student) (logs : list AttendanceRawData) : State :=
  {| allStudents := students; rawAttendance := logs; processedChartData := [];
     loadingStudents := false; loadingAttendance := false; error := None;
     selectedBarDate := None; selectedStudentId := "" |}.

Definition sampleState : State := loaded sampleStudents sampleLogs.

(** A bar click as the chart library delivers it. *)
Definition clickOn (p : ProcessedChartDataPoint) : option ChartEvent :=
  Some {| activePayload := Some [ {| payload := p |} ] |}.

(** The states and logs the properties are run on. *)
Definition drilldownState : State :=
  setSelectedBarDate (Some "2025-05-01") sampleState.

(** A log entry dated by the empty string, selected: the guard treats
    the empty string like no selection. *)
Definition emptyDateState : State :=
  setSelectedBarDate (Some "")
    (loaded [ {| id := 1; name := "Ann" |} ] [ {| date := ""; present := [1] |} ]).

Definition duplicateLogs : list AttendanceRawData :=
  [ {| date := "2025-05-02"; present := [4] |};
    {| date := "2025-05-01"; present := [1; 2] |};
    {| date := "2025-05-01"; present := [3] |} ].

Definition historyState : State :=
  handleStudentChange "2"
    (loaded sampleStudents
       [ {| date := "2025-05-03"; present := [1; 3] |};
         {| date := "2025-05-01"; present := [3; 4] |};
         {| date := "2025-05-02"; present := [2] |} ]).

(** Logs whose dates are not "YYYY-MM-DD" strings, with student 1
    chosen: the display dates are "B" and "a". *)
Definition mixedCaseState : State :=
  handleStudentChange "1"
    (loaded sampleStudents
       [ {| date := "2025-B"; present := [1] |};
         {| date := "2025-a"; present := [] |} ]).

(** A roster of [n] students, and a day on which the first [k] came. *)
Definition roster (n : nat) : list Student :=
  map (fun i => {| id := Z.of_nat i; name := "Student " ++ JS.toString (Z.of_nat i) |})
      (seq 1 n).

Definition attendance (day : string) (k : nat) : AttendanceRawData :=
  {| date := day; present := map Z.of_nat (seq 1 k) |}.

(* ===================================================================== *)
(** * The rest of the page: fetching, rendering, interaction *)
(* ===================================================================== *)

(** ** Fetching the raw data (the first [useEffect]) *)

(** How one of the two requests ends: [fetch] rejects, the response is
    not [ok] (the code throws), [response.json()] rejects, or the body
    arrives.  The first three all land in the [catch] block. *)
Inductive Response (A : Type) : Type :=
| Rejected
| NotOk
| BodyRejected
| Ok (data : A).

Arguments Rejected {A}.
Arguments NotOk {A}.
Arguments BodyRejected {A}.
Arguments Ok {A} data.

Definition setAllStudents (v : list Student) (st : State) : State :=
  {| allStudents := v; rawAttendance := rawAttendance st;
     processedChartData := processedChartData st;
     loadingStudents := loadingStudents st;
     loadingAttendance := loadingAttendance st; error := error st;
     selectedBarDate := selectedBarDate st;
     selectedStudentId := selectedStudentId st |}.

Definition setLoadingStudents (v : bool) (st : State) : State :=
  {| allStudents := allStudents st; rawAttendance := rawAttendance st;
     processedChartData := processedChartData st;
     loadingStudents := v;
     loadingAttendance := loadingAttendance st; error := error st;
     selectedBarDate := selectedBarDate st;
     selectedStudentId := selectedStudentId st |}.

Definition setLoadingAttendance (v : bool) (st : State) : State :=
  {| allStudents := allStudents st; rawAttendance := rawAttendance st;
     processedChartData := processedChartData st;
     loadingStudents := loadingStudents st;
     loadingAttendance := v; error := error st;
     selectedBarDate := selectedBarDate st;
     selectedStudentId := selectedStudentId st |}.

Definition setError (v : option string) (st : State) : State :=
  {| allStudents := allStudents st; rawAttendance := rawAttendance st;
     processedChartData := processedChartData st;
     loadingStudents := loadingStudents st;
     loadingAttendance := loadingAttendance st; error := v;
     selectedBarDate := selectedBarDate st;
     selectedStudentId := selectedStudentId st |}.

(** [fetchStudents] up to its first [await], and from the settling of
    the request on: [try] / [catch] / [finally]. *)
Definition fetchStudentsStarted (st : State) : State :=
  setLoadingStudents true st.

Definition fetchStudentsSettled (r : Response (list Student)) (st : State) : State :=
  setLoadingStudents false
    match r with
    | Ok studentData => setAllStudents studentData st
    | _ => setError (Some "Failed to fetch students.") st
    end.

Definition fetchRawAttendanceStarted (st : State) : State :=
  setLoadingAttendance true st.

Definition fetchRawAttendanceSettled (r : Response (list AttendanceRawData))
    (st : State) : State :=
  setLoadingAttendance false
    match r with
    | Ok attendanceData => setRawAttendance attendanceData st
    | _ => setError (Some "Failed to fetch attendance logs.") st
    end.

(** The component after mounting: both requests started, and the
    chart-data effect run once on the empty arrays. *)
Definition mounted : State :=
  chartDataEffect (fetchRawAttendanceStarted (fetchStudentsStarted initialState)).

(** A request settles and the component renders again.  The chart-data
    effect runs when one of its dependencies was replaced, that is when
    a body arrived (every parsed body is a new array). *)
Definition studentsFetched (r : Response (list Student)) (st : State) : State :=
  match r with
  | Ok _ => chartDataEffect (fetchStudentsSettled r st)
  | _ => fetchStudentsSettled r st
  end.

Definition attendanceFetched (r : Response (list AttendanceRawData)) (st : State) : State :=
  match r with
  | Ok _ => chartDataEffect (fetchRawAttendanceSettled r st)
  | _ => fetchRawAttendanceSettled r st
  end.

(** ** What the user does *)

Inductive UserEvent : Type :=
| BarClick (data : option ChartEvent) (index : Z)
| StudentChange (value : string).

Definition handleEvent (e : UserEvent) (st : State) : State :=
  match e with
  | BarClick data index => handleBarClick data index st
  | StudentChange value => handleStudentChange value st
  end.

Definition interact (es : list UserEvent) (st : State) : State :=
  fold_left (fun s e => handleEvent e s) es st.

(** ** Rendering *)

(** [parseInt(s)] without a radix: as [parseInt(s, 10)], except that a
    "0x" or "0X" after the sign switches to hexadecimal digits. *)
Definition hex_digit_of_ascii (c : ascii) : option Z :=
  let n := Z.of_N (N_of_ascii c) in
  if (48 <=? n) && (n <=? 57) then Some (n - 48)
  else if (97 <=? n) && (n <=? 102) then Some (n - 87)
  else if (65 <=? n) && (n <=? 70) then Some (n - 55)
  else None.

Fixpoint hex_digits_prefix (s : string) : list Z :=
  match s with
  | String c s' =>
      match hex_digit_of_ascii c with
      | Some d => d :: hex_digits_prefix s'
      | None => []
      end
  | EmptyString => []
  end.

Definition parseInt_no_radix (s : string) : option Z :=
  let s1 := JS.trim_start s in
  let '(neg, s2) :=
    match s1 with
    | String "-" r => (true, r)
    | String "+" r => (false, r)
    | _ => (false, s1)
    end in
  let digits :=
    match s2 with
    | String "0" (String "x" r) => (16, hex_digits_prefix r)
    | String "0" (String "X" r) => (16, hex_digits_prefix r)
    | _ => (10, fst (JS.digits_prefix s2))
    end in
  match digits with
  | (_, []) => None
  | (radix, ds) =>
      let v := fold_left (fun acc d => radix * acc + d) ds 0 in
      Some (if neg then - v else v)
  end.

(** A truthy [selectedBarDate], as the JSX conditions test it. *)
Definition truthy_date (d : option string) : option string :=
  match d with
  | Some (String c r) => Some (String c r)
  | _ => None
  end.

(** The [fill] of the [Cell] of a chart point. *)
Definition cellFill (st : State) (entry : ProcessedChartDataPoint) : string :=
  match selectedBarDate st with
  | Some d => if (originalDate entry =? d)%string then "#a78bfa" else "#8884d8"
  | None => "#8884d8"
  end.

(** The chart, or [None] for "No attendance data available.". *)
Definition chartArea (st : State) : option (list (ProcessedChartDataPoint * string)) :=
  if 0 <? length_of (processedChartData st)
  then Some (map (fun entry => (entry, cellFill st entry)) (processedChartData st))
  else None.

(** The list under "Students Present on ...". *)
Definition presentPanel (st : State) : option (list string) :=
  match truthy_date (selectedBarDate st) with
  | Some _ =>
      if 0 <? length_of (presentStudentsOnSelectedDate st)
      then Some (presentStudentsOnSelectedDate st) else None
  | None => None
  end.

(** "No students recorded as present for {selectedBarDate}." *)
Definition nonePresentNote (st : State) : option string :=
  match truthy_date (selectedBarDate st) with
  | Some d =>
      if length_of (presentStudentsOnSelectedDate st) =? 0 then Some d else None
  | None => None
  end.

(** The [option] elements of the [select]: value and text. *)
Definition studentOptions (st : State) : list (string * string) :=
  ("", "-- Select a Student --")
    :: map (fun student => (JS.toString (id student), name student)) (allStudents st).

(** [allStudents.find(s => s.id === parseInt(selectedStudentId))?.name
    || 'Selected Student'] *)
Definition historyHeading (st : State) : string :=
  let n := parseInt_no_radix (selectedStudentId st) in
  match List.find (fun s => match n with Some k => id s =? k | None => false end)
                  (allStudents st) with
  | Some {| name := String c r |} => String c r
  | _ => "Selected Student"
  end.

Section Render.

Variable localeCompare : string -> string -> Z.

(** The table of a student's attendance, with the name in its heading. *)
Definition historyTable (st : State) : option (string * list AttendanceRecord) :=
  if negb (selectedStudentId st =? "")%string
     && (0 <? length_of (studentSpecificAttendanceData localeCompare st))
  then Some (historyHeading st, studentSpecificAttendanceData localeCompare st)
  else None.

(** "No attendance data found for this period for the selected student." *)
Definition noHistoryNote (st : State) : bool :=
  negb (selectedStudentId st =? "")%string
  && (length_of (studentSpecificAttendanceData localeCompare st) =? 0).

Record Page := {
  page_chart : option (list (ProcessedChartDataPoint * string));
  page_present : option (list string);
  page_nonePresent : option string;
  page_options : list (string * string);
  page_selectValue : string;
  page_history : option (string * list AttendanceRecord);
  page_noHistory : bool
}.

Inductive Screen : Type :=
| LoadingScreen
| ErrorScreen (message : string)
| PageScreen (p : Page).

(** The three [return]s of the component: the loading text while either
    request is pending, then the error text if [error] is truthy, then
    the page. *)
Definition render (st : State) : Screen :=
  if loadingStudents st || loadingAttendance st then LoadingScreen
  else
    match error st with
    | Some (String c r) => ErrorScreen ("Error: " ++ String c r)
    | _ =>
        PageScreen
          {| page_chart := chartArea st;
             page_present := presentPanel st;
             page_nonePresent := nonePresentNote st;
             page_options := studentOptions st;
             page_selectValue := selectedStudentId st;
             page_history := historyTable st;
             page_noHistory := noHistoryNote st |}
    end.

End Render.

(** ** Vocabulary of the further properties *)

(** A click the chart can deliver in state [st]: its payload, if any,
    is one of the chart's points. *)
Definition chart_click (st : State) (e : UserEvent) : Prop :=
  match e with
  | BarClick (Some {| activePayload := Some (item :: _) |}) _ =>
      In (payload item) (processedChartData st)
  | _ => True
  end.

(** The fields the handlers never write. *)
Definition same_data (a b : State) : Prop :=
  allStudents a = allStudents b
  /\ rawAttendance a = rawAttendance b
  /\ processedChartData a = processedChartData b
  /\ loadingStudents a = loadingStudents b
  /\ loadingAttendance a = loadingAttendance b
  /\ error a = error b.

Definition succeeded {A : Type} (r : Response A) : bool :=
  match r with
  | Ok _ => true
  | _ => false
  end.

(** The data of a response, the initial empty array when it failed. *)
Definition body {A : Type} (r : Response (list A)) : list A :=
  match r with
  | Ok data => data
  | _ => []
  end.

(** The days on which [k] is among the present ids. *)
Definition days_present (k : Z) (logs : list AttendanceRawData) : nat :=
  List.length (filter (fun log => existsb (Z.eqb k) (present log)) logs).

Definition is_present_row (r : AttendanceRecord) : bool :=
  (status r =? "Present")%string.

(** The value of the last student choice among the events. *)
Fixpoint last_student_change (es : list UserEvent) (initial : string) : string :=
  match es with
  | [] => initial
  | StudentChange v :: es' => last_student_change es' v
  | BarClick _ _ :: es' => last_student_change es' initial
  end.

(** The selected date is unset or the date of a log entry. *)
Definition selection_in_logs (st : State) : Prop :=
  selectedBarDate st = None
  \/ exists log, In log (rawAttendance st) /\ selectedBarDate st = Some (date log).

(** Every element of the list is strictly below, by [leb], each one after
    it. *)
Fixpoint ascending (l : list JS.double) : bool :=
  match l with
  | [] => true
  | x :: r =>
      JS.leb x x
      && forallb (fun y => JS.leb x y && negb (JS.leb y x)) r
      && ascending r
  end.

(** The one-decimal Numbers from 0.0 to 100.0. *)
Definition tenths_table : list JS.double :=
  map (fun i => oneDecimal (Z.of_nat i)) (seq 0 1001).

(** Rounding the tenth [n / 10] again gives it back. *)
Definition tenth_stable (n : Z) : bool :=
  double_eqb (roundToOneDecimal (oneDecimal n)) (oneDecimal n).

(* ===================================================================== *)
(** * Properties *)
(* ===================================================================== *)

(** ** Strings *)

Lemma String_substring_drop (s : string) (n : nat) :
  String.substring n (String.length s - n) s = JS.drop n s.
Proof.
  revert n; induction s as [|c s IH]; intros [|n]; simpl; auto.
  - f_equal. specialize (IH 0%nat). rewrite Nat.sub_0_r in IH.
    destruct s; simpl in *; auto.
Qed.

Lemma String_substring_0 (s : string) (n : nat) : String.substring n 0 s = "".
Proof. revert n; induction s as [|c s IH]; intros [|n]; simpl; auto. Qed.

Lemma drop_beyond (s : string) (n : nat) :
  (String.length s <= n)%nat -> JS.drop n s = "".
Proof.
  revert n; induction s as [|c s IH]; intros [|n] Hn; simpl in *; auto; try lia.
  apply IH; lia.
Qed.

Lemma substring_drop (start : Z) (s : string) :
  JS.substring start s = JS.drop (Z.to_nat start) s.
Proof.
  unfold JS.substring.
  destruct (Z_le_gt_dec start (Z.of_nat (String.length s))) as [Hle|Hgt].
  - replace (Z.min (Z.min (Z.max start 0) _) _) with (Z.max start 0) by lia.
    replace (Z.max (Z.min (Z.max start 0) _) _)
      with (Z.of_nat (String.length s)) by lia.
    replace (Z.to_nat (Z.max start 0)) with (Z.to_nat start) by lia.
    replace (Z.to_nat (Z.of_nat (String.length s) - Z.max start 0))
      with (String.length s - Z.to_nat start)%nat by lia.
    apply String_substring_drop.
  - replace (Z.min (Z.min (Z.max start 0) _) _)
      with (Z.of_nat (String.length s)) by lia.
    replace (Z.max (Z.min (Z.max start 0) _) _)
      with (Z.of_nat (String.length s)) by lia.
    rewrite Nat2Z.id, Z.sub_diag. simpl.
    rewrite String_substring_0, drop_beyond; auto; lia.
Qed.

Lemma drop_split (s : string) (n : nat) :
  exists p, s = p ++ JS.drop n s /\ String.length p = Nat.min n (String.length s).
Proof.
  revert n; induction s as [|c s IH]; intros [|n]; simpl.
  - exists ""; auto.
  - exists ""; auto.
  - exists ""; auto.
  - destruct (IH n) as (p & Hp & Hl).
    exists (String c p); simpl; split; [congruence | lia].
Qed.

Lemma drop_length (s : string) (n : nat) :
  String.length (JS.drop n s) = (String.length s - n)%nat.
Proof. revert n; induction s as [|c s IH]; intros [|n]; simpl; auto. Qed.

(** ** Lists *)

Lemma find_first {A : Type} (f : A -> bool) (l1 l2 : list A) (e : A) :
  (forall r, In r l1 -> f r = false) -> f e = true ->
  List.find f (l1 ++ e :: l2) = Some e.
Proof.
  induction l1 as [|x l1 IH]; simpl; intros Hl1 He.
  - now rewrite He.
  - rewrite (Hl1 x) by auto. apply IH; auto.
Qed.

Lemma find_none_iff {A : Type} (f : A -> bool) (l : list A) :
  (forall r, In r l -> f r = false) -> List.find f l = None.
Proof.
  induction l as [|x l IH]; simpl; intros H; auto.
  rewrite (H x) by auto. apply IH; auto.
Qed.

Lemma length_of_zero {A : Type} (l : list A) :
  (length_of l =? 0) = true <-> l = [].
Proof.
  unfold length_of. rewrite Z.eqb_eq.
  destruct l; simpl; split; intros; try congruence; try lia.
Qed.

Lemma length_of_pos {A : Type} (l : list A) :
  (0 <? length_of l) = true <-> l <> [].
Proof.
  unfold length_of. rewrite Z.ltb_lt.
  destruct l; simpl; split; intros; try congruence; try lia.
Qed.

(** ** The display date (C10) *)

(** C10.  Deriving the display date is total: on every string, whatever
    its length or shape, [substring(5)] returns the suffix that starts at
    index 5 (empty when the string has at most 5 characters), so a chart
    point and a history record are built for every log entry. *)
Theorem display_date_total (s : string) (totalStudents : Z)
    (studentIdNum : option Z) (students : list Student)
    (logs : list AttendanceRawData) (ids : list Z) :
  (exists p, s = p ++ JS.substring 5 s
             /\ String.length p = Nat.min 5 (String.length s))
  /\ String.length (JS.substring 5 s) = (String.length s - 5)%nat
  /\ chart_date (chartPoint totalStudents {| date := s; present := ids |})
     = JS.drop 5 s
  /\ record_date (historyRecord studentIdNum {| date := s; present := ids |})
     = JS.drop 5 s
  /\ List.length (chartData students logs) = List.length logs
  /\ List.length (map (historyRecord studentIdNum) logs) = List.length logs.
Proof.
  rewrite !substring_drop. change (Z.to_nat 5) with 5%nat.
  repeat split.
  - apply drop_split.
  - apply drop_length.
  - simpl. now rewrite substring_drop.
  - simpl. now rewrite substring_drop.
  - unfold chartData. now rewrite length_map.
  - now rewrite length_map.
Qed.

(** ** The chart-data effect (C4, C6) *)

Lemma chartDataEffect_run (st : State) :
  allStudents st <> [] -> rawAttendance st <> [] ->
  chartDataEffect st
  = setProcessedChartData (chartData (allStudents st) (rawAttendance st)) st.
Proof.
  intros Hs Hl. unfold chartDataEffect.
  apply length_of_pos in Hs. apply length_of_pos in Hl.
  now rewrite Hs, Hl.
Qed.

Lemma chartData_originalDate (students : list Student) (logs : list AttendanceRawData) :
  map originalDate (chartData students logs) = map date logs.
Proof.
  unfold chartData. rewrite map_map. apply map_ext. reflexivity.
Qed.

(** C4.  With a non-empty roster and non-empty logs, the effect stores
    one chart point per log entry, and the points' [originalDate] fields
    are the logs' [date] fields in the same order: nothing is sorted or
    reordered. *)
Theorem aggregation_preserves_order (st : State) :
  allStudents st <> [] -> rawAttendance st <> [] ->
  List.length (processedChartData (chartDataEffect st))
  = List.length (rawAttendance st)
  /\ map originalDate (processedChartData (chartDataEffect st))
     = map date (rawAttendance st).
Proof.
  intros Hs Hl. rewrite chartDataEffect_run by assumption. simpl.
  rewrite chartData_originalDate. split; [|reflexivity].
  unfold chartData. now rewrite length_map.
Qed.

Lemma aggregation_preserves_order_witness :
  map originalDate (processedChartData (chartDataEffect sampleState))
  = ["2025-05-03"; "2025-05-01"; "2025-05-02"].
Proof.
  apply (proj2 (aggregation_preserves_order sampleState
                  ltac:(discriminate) ltac:(discriminate))).
Defined.

(** C6.  With an empty roster or empty logs the effect does nothing: the
    state, and with it the chart data processed before, is returned as it
    was.  The percentage itself never divides by a zero roster size: for
    [totalStudents = 0] it is the constant 0, and so is its rounding. *)
Theorem aggregation_skipped_when_empty (st : State) :
  allStudents st = [] \/ rawAttendance st = [] ->
  chartDataEffect st = st
  /\ processedChartData (chartDataEffect st) = processedChartData st
  /\ forall log, percentage 0 log = S754_zero false
                 /\ attendancePercentage (chartPoint 0 log) = S754_zero false.
Proof.
  intros H.
  assert (E : chartDataEffect st = st).
  { unfold chartDataEffect. destruct H as [H|H]; rewrite H; simpl; auto.
    now rewrite andb_false_r. }
  rewrite E. repeat split; reflexivity.
Qed.

Lemma aggregation_skipped_when_empty_witness :
  chartDataEffect (loaded [] sampleLogs) = loaded [] sampleLogs.
Proof.
  apply (proj1 (aggregation_skipped_when_empty (loaded [] sampleLogs)
                  (or_introl eq_refl))).
Defined.

(** Number division never throws: by zero it returns [Infinity], and
    [NaN] for [0 / 0]. *)
Lemma division_by_zero_is_a_value :
  JS.div (JS.of_Z 3) (JS.of_Z 0) = S754_infinity false
  /\ JS.div (JS.of_Z 0) (JS.of_Z 0) = S754_nan.
Proof. split; reflexivity. Qed.

(** ** Selection state (C7, C8) *)

Lemma handleBarClick_frame (data : option ChartEvent) (index : Z) (st : State) :
  handleBarClick data index st
  = setSelectedBarDate (selectedBarDate (handleBarClick data index st)) st.
Proof.
  unfold handleBarClick.
  destruct data as [[[[|item items]|]]|];
    try (destruct (at_index (processedChartData st) index));
    destruct st; reflexivity.
Qed.

(** C7.  A bar click changes nothing but [selectedBarDate], and the
    student choice changes nothing but [selectedStudentId]; neither
    clears the other, so after clicking the bar of a date and choosing
    a student both selections are held together. *)
Theorem selection_axes_independent
    (data : option ChartEvent) (index : Z) (value : string)
    (p : ProcessedChartDataPoint) (st : State) :
  handleBarClick data index st
  = setSelectedBarDate (selectedBarDate (handleBarClick data index st)) st
  /\ selectedStudentId (handleBarClick data index st) = selectedStudentId st
  /\ handleStudentChange value st = setSelectedStudentId value st
  /\ selectedBarDate (handleStudentChange value st) = selectedBarDate st
  /\ selectedBarDate (handleStudentChange value (handleBarClick (clickOn p) index st))
     = Some (originalDate p)
  /\ selectedStudentId (handleStudentChange value (handleBarClick (clickOn p) index st))
     = value.
Proof.
  split; [apply handleBarClick_frame|].
  split; [rewrite handleBarClick_frame; reflexivity|].
  repeat split; reflexivity.
Qed.

(** C8.  Clicking the same bar twice gives the state of clicking it
    once; the date stays selected and is never toggled back to absent,
    also when it was the selected date before the click. *)
Theorem reselection_idempotent
    (data : option ChartEvent) (index : Z) (p : ProcessedChartDataPoint)
    (st : State) :
  handleBarClick data index (handleBarClick data index st)
  = handleBarClick data index st
  /\ selectedBarDate (handleBarClick (clickOn p) index
                        (handleBarClick (clickOn p) index st))
     = Some (originalDate p)
  /\ handleBarClick (clickOn p) index (setSelectedBarDate (Some (originalDate p)) st)
     = setSelectedBarDate (Some (originalDate p)) st.
Proof.
  repeat split; try reflexivity.
  unfold handleBarClick.
  destruct data as [[[[|item items]|]]|]; try reflexivity;
    destruct (at_index (processedChartData st) index) eqn:E; simpl;
    rewrite ?E; reflexivity.
Qed.

(** ** Drill-down by day (C3, C5, C9) *)

Lemma falsy_date_false (d : string) : d <> "" -> falsy_date (Some d) = false.
Proof. destruct d; simpl; congruence. Qed.

(** The view on a non-empty date whose first matching entry is [log]. *)
Lemma presentStudents_first_match
    (st : State) (d : string) (l1 l2 : list AttendanceRawData)
    (log : AttendanceRawData) :
  selectedBarDate st = Some d -> d <> "" -> allStudents st <> [] ->
  rawAttendance st = (l1 ++ log :: l2)%list ->
  (forall r, In r l1 -> date r <> d) -> date log = d ->
  presentStudentsOnSelectedDate st
  = map (studentLabel (allStudents st)) (present log).
Proof.
  intros Hd Hne Hs Hlogs Hl1 Hlog. unfold presentStudentsOnSelectedDate.
  rewrite Hd, (falsy_date_false d Hne). simpl.
  destruct (length_of (allStudents st) =? 0) eqn:E.
  { apply length_of_zero in E. contradiction. }
  rewrite Hlogs, (find_first _ l1 l2 log); auto.
  - intros r Hr. simpl. apply String.eqb_neq. auto.
  - simpl. now apply String.eqb_eq.
Qed.

Lemma studentLabel_found (students : list Student) (i : Z) :
  (exists s, In s students /\ id s = i) ->
  exists s, In s students /\ id s = i /\ studentLabel students i = name s.
Proof.
  intros (s & Hin & Hid). unfold studentLabel.
  destruct (List.find (fun s0 => id s0 =? i) students) as [s'|] eqn:E.
  - apply find_some in E as [Hin' Hid']. apply Z.eqb_eq in Hid'.
    exists s'. auto.
  - apply find_none with (x := s) in E; auto.
    apply Z.eqb_neq in E. contradiction.
Qed.

Lemma studentLabel_fallback (students : list Student) (i : Z) :
  (forall s, In s students -> id s <> i) ->
  studentLabel students i = "ID: " ++ JS.toString i.
Proof.
  intros H. unfold studentLabel. rewrite find_none_iff; auto.
  intros s Hs. apply Z.eqb_neq. auto.
Qed.

(** C3, as amended.  For a selected date that is a non-empty string, a
    non-empty roster, and [log] the first entry with that date, the view
    has one row per id of [log.present], in the order of [log.present]:
    the name of a roster record with that id when there is one, and the
    label "ID: <id>" when there is none. *)
Theorem day_drilldown_rows
    (st : State) (d : string) (l1 l2 : list AttendanceRawData)
    (log : AttendanceRawData) :
  selectedBarDate st = Some d -> d <> "" -> allStudents st <> [] ->
  rawAttendance st = (l1 ++ log :: l2)%list ->
  (forall r, In r l1 -> date r <> d) -> date log = d ->
  let rows := presentStudentsOnSelectedDate st in
  List.length rows = List.length (present log)
  /\ forall (n : nat) (i : Z), nth_error (present log) n = Some i ->
       exists row, nth_error rows n = Some row
         /\ ((exists s, In s (allStudents st) /\ id s = i) ->
             exists s, In s (allStudents st) /\ id s = i /\ row = name s)
         /\ ((forall s, In s (allStudents st) -> id s <> i) ->
             row = "ID: " ++ JS.toString i).
Proof.
  intros Hd Hne Hs Hlogs Hl1 Hlog rows. subst rows.
  rewrite (presentStudents_first_match st d l1 l2 log) by assumption.
  split; [apply length_map|].
  intros n i Hn. exists (studentLabel (allStudents st) i).
  split; [now apply map_nth_error|].
  split; [apply studentLabel_found | apply studentLabel_fallback].
Qed.

Lemma day_drilldown_rows_witness :
  List.length (presentStudentsOnSelectedDate drilldownState) = 3%nat
  /\ forall (n : nat) (i : Z), nth_error [2; 7; 99] n = Some i ->
       exists row, nth_error (presentStudentsOnSelectedDate drilldownState) n = Some row
         /\ ((exists s, In s sampleStudents /\ id s = i) ->
             exists s, In s sampleStudents /\ id s = i /\ row = name s)
         /\ ((forall s, In s sampleStudents -> id s <> i) ->
             row = "ID: " ++ JS.toString i).
Proof.
  apply (day_drilldown_rows drilldownState "2025-05-01"
           [ {| date := "2025-05-03"; present := [1; 3] |} ]
           [ {| date := "2025-05-02"; present := [3; 4] |} ]
           {| date := "2025-05-01"; present := [2; 7; 99] |}).
  - reflexivity.
  - discriminate.
  - discriminate.
  - reflexivity.
  - intros r [<-|[]]. discriminate.
  - reflexivity.
Defined.

(** C3, counterexample.  The selected date [""] has a matching log entry
    with one present id and the roster is not empty, yet the view has no
    row at all. *)
Lemma day_drilldown_empty_date_counterexample :
  selectedBarDate emptyDateState = Some ""
  /\ allStudents emptyDateState <> []
  /\ List.find (date_is (Some "")) (rawAttendance emptyDateState)
     = Some {| date := ""; present := [1] |}
  /\ presentStudentsOnSelectedDate emptyDateState = []
  /\ List.length (presentStudentsOnSelectedDate emptyDateState)
     <> List.length (present {| date := ""; present := [1] |}).
Proof. repeat split; try reflexivity; discriminate. Qed.

(** C5.  The view is the empty list whenever no date is selected, or no
    log entry has the selected date, or the roster is empty. *)
Theorem day_drilldown_empty (st : State) :
  selectedBarDate st = None
  \/ (forall r, In r (rawAttendance st) -> Some (date r) <> selectedBarDate st)
  \/ allStudents st = [] ->
  presentStudentsOnSelectedDate st = [].
Proof.
  intros H. unfold presentStudentsOnSelectedDate.
  destruct (falsy_date (selectedBarDate st)) eqn:Ef; [reflexivity|].
  destruct (length_of (allStudents st) =? 0) eqn:El; [reflexivity|]. simpl.
  destruct H as [H|[H|H]].
  - rewrite H in Ef. discriminate.
  - rewrite find_none_iff; auto. intros r Hr. specialize (H r Hr).
    unfold date_is. destruct (selectedBarDate st) as [d|]; auto.
    apply String.eqb_neq. congruence.
  - apply length_of_zero in H. congruence.
Qed.

Lemma day_drilldown_empty_witness :
  presentStudentsOnSelectedDate sampleState = []
  /\ presentStudentsOnSelectedDate
       (setSelectedBarDate (Some "2025-06-01") sampleState) = []
  /\ presentStudentsOnSelectedDate
       (setSelectedBarDate (Some "2025-05-01") (loaded [] sampleLogs)) = [].
Proof.
  split; [|split].
  - apply (day_drilldown_empty sampleState). left. reflexivity.
  - apply (day_drilldown_empty (setSelectedBarDate (Some "2025-06-01") sampleState)).
    right; left. simpl. intros r [<-|[<-|[<-|[]]]]; discriminate.
  - apply (day_drilldown_empty
             (setSelectedBarDate (Some "2025-05-01") (loaded [] sampleLogs))).
    right; right. reflexivity.
Defined.

(** C9.  When several entries carry the selected date, the view is that
    of the first of them in sequence order: the entries after it, among
    them every later duplicate, contribute nothing. *)
Theorem day_drilldown_first_duplicate
    (st : State) (d : string) (l1 l2 : list AttendanceRawData)
    (log : AttendanceRawData) :
  selectedBarDate st = Some d ->
  rawAttendance st = (l1 ++ log :: l2)%list ->
  (forall r, In r l1 -> date r <> d) -> date log = d ->
  presentStudentsOnSelectedDate st
  = presentStudentsOnSelectedDate (setRawAttendance (l1 ++ [log]) st)
  /\ (d <> "" -> allStudents st <> [] ->
      presentStudentsOnSelectedDate st
      = map (studentLabel (allStudents st)) (present log)).
Proof.
  intros Hd Hlogs Hl1 Hlog. split.
  - unfold presentStudentsOnSelectedDate. simpl. rewrite Hlogs, Hd.
    destruct (falsy_date (Some d) || (length_of (allStudents st) =? 0));
      [reflexivity|].
    rewrite !(find_first _ l1 _ log); auto; simpl;
      try (now apply String.eqb_eq);
      intros r Hr; apply String.eqb_neq; auto.
  - intros Hne Hs. now apply (presentStudents_first_match st d l1 l2 log).
Qed.

Lemma day_drilldown_first_duplicate_witness :
  presentStudentsOnSelectedDate
    (setSelectedBarDate (Some "2025-05-01") (loaded sampleStudents duplicateLogs))
  = ["Ann"; "Bob"].
Proof.
  apply (proj2 (day_drilldown_first_duplicate
           (setSelectedBarDate (Some "2025-05-01") (loaded sampleStudents duplicateLogs))
           "2025-05-01"
           [ {| date := "2025-05-02"; present := [4] |} ]
           [ {| date := "2025-05-01"; present := [3] |} ]
           {| date := "2025-05-01"; present := [1; 2] |}
           eq_refl eq_refl
           ltac:(intros r [<-|[]]; discriminate) eq_refl));
    discriminate.
Defined.

(** ** Sorting *)

Section SortFacts.
Context {A : Type} (cmp : A -> A -> Z).

Lemma insert_perm (x : A) (l : list A) : Permutation (JS.insert cmp x l) (x :: l).
Proof.
  induction l as [|y l IH]; simpl; auto.
  destruct (0 <? cmp x y); auto.
  rewrite IH. apply perm_swap.
Qed.

Lemma sort_perm (l : list A) : Permutation (JS.sort cmp l) l.
Proof.
  induction l as [|x l IH]; simpl; auto.
  rewrite insert_perm. now constructor.
Qed.

(** Sortedness needs a comparator that is consistent on the elements
    being sorted: [P] delimits them, [le] is the order it induces. *)
Variables (P : A -> Prop) (le : A -> A -> Prop).
Hypothesis le_trans : forall a b c, le a b -> le b c -> le a c.
Hypothesis cmp_gt : forall a b, P a -> P b -> 0 < cmp a b -> le b a.
Hypothesis cmp_le : forall a b, P a -> P b -> ~ 0 < cmp a b -> le a b.

Lemma insert_sorted (x : A) (l : list A) :
  P x -> Forall P l -> StronglySorted le l ->
  StronglySorted le (JS.insert cmp x l).
Proof.
  intros Px HP Hs. induction Hs as [|y l Hs IH Hy]; simpl.
  - repeat constructor.
  - inversion HP as [|? ? Py HPl]; subst.
    destruct (0 <? cmp x y) eqn:E.
    + apply Z.ltb_lt in E. constructor; auto.
      rewrite insert_perm. constructor; auto.
    + apply Z.ltb_ge in E.
      assert (Hxy : le x y) by (apply cmp_le; auto; lia).
      constructor; [constructor; auto|].
      constructor; auto.
      eapply Forall_impl; [|exact Hy]. intros z Hz. eauto.
Qed.

Lemma sort_sorted (l : list A) :
  Forall P l -> StronglySorted le (JS.sort cmp l).
Proof.
  induction 1 as [|x l Px HP IH]; simpl; [constructor|].
  apply insert_sorted; auto.
  rewrite sort_perm. exact HP.
Qed.
End SortFacts.

(** ** Code-unit order on strings *)

Lemma String_compare_trans (a b c : string) :
  String.compare a b <> Gt -> String.compare b c <> Gt -> String.compare a c <> Gt.
Proof.
  revert b c; induction a as [|x a IH]; intros [|y b] [|z c]; simpl;
    try congruence.
  unfold Ascii.compare.
  destruct (N.compare_spec (N_of_ascii x) (N_of_ascii y)) as [Exy|Lxy|Gxy];
    destruct (N.compare_spec (N_of_ascii y) (N_of_ascii z)) as [Eyz|Lyz|Gyz];
    try congruence; intros H1 H2.
  - rewrite Exy, Eyz, N.compare_refl. eauto.
  - rewrite Exy. apply N.compare_lt_iff in Lyz. now rewrite Lyz.
  - rewrite <- Eyz. apply N.compare_lt_iff in Lxy. now rewrite Lxy.
  - assert (L : (N_of_ascii x < N_of_ascii z)%N) by lia.
    apply N.compare_lt_iff in L. now rewrite L.
Qed.

Lemma String_leb_trans (a b c : string) :
  (a <=? b)%string = true -> (b <=? c)%string = true -> (a <=? c)%string = true.
Proof.
  unfold String.leb. intros H1 H2.
  pose proof (String_compare_trans a b c) as H.
  destruct (String.compare a b), (String.compare b c), (String.compare a c);
    try discriminate; auto; exfalso; apply H; congruence.
Qed.

Lemma codeUnitCompare_sgn (a b : string) :
  Z.sgn (codeUnitCompare a b) = codeUnitCompare a b.
Proof. unfold codeUnitCompare. destruct (String.compare a b); reflexivity. Qed.

(** ** Date shapes *)

Lemma iso_date_display (s : string) :
  iso_date s = true -> month_day (JS.substring 5 s) = true.
Proof.
  rewrite substring_drop. change (Z.to_nat 5) with 5%nat.
  destruct s as [|y1 [|y2 [|y3 [|y4 [|h rest]]]]]; simpl; try discriminate.
  destruct h as [[] [] [] [] [] [] [] []]; try discriminate.
  intros H. apply andb_true_iff in H. apply H.
Qed.

(** ** Reading an id back from the [select] *)

Lemma digits_prefix_string_of_uint (d : Decimal.uint) :
  JS.digits_prefix (NilEmpty.string_of_uint d) = (digits_of_uint d, "").
Proof.
  induction d; cbn [NilEmpty.string_of_uint digits_of_uint JS.digits_prefix];
    try reflexivity;
    (match goal with
     | |- context [JS.digit_of_ascii ?c] =>
         change (JS.digit_of_ascii c) with (Some (Z.of_N (N_of_ascii c) - 48))
     end);
    rewrite IHd; reflexivity.
Qed.

Lemma fold_digits (d : Decimal.uint) (acc : Z) :
  fold_left (fun a k => 10 * a + k) (digits_of_uint d) acc
  = Z.of_N (Unsigned.of_lu (Decimal.rev d))
    + acc * 10 ^ Z.of_N (Unsigned.usize d).
Proof.
  revert acc. induction d; intros acc;
    cbn [digits_of_uint fold_left Unsigned.usize];
    [simpl; lia | ..];
    rewrite IHd; unfold Decimal.rev at 2; cbn [Decimal.revapp];
    (match goal with
     | |- context [Unsigned.of_lu (Decimal.revapp d (?c Decimal.Nil))] =>
         rewrite (Unsigned.of_lu_revapp d (c Decimal.Nil))
     end);
    cbn [Unsigned.of_lu];
    rewrite N2Z.inj_succ, Z.pow_succ_r by lia;
    rewrite N2Z.inj_add, N2Z.inj_mul, N2Z.inj_pow;
    simpl (Z.of_N (_ + 10 * 0)); simpl (Z.of_N (10 * 0)); simpl (Z.of_N 10);
    ring.
Qed.

Lemma value_of_digits_to_uint (p : positive) :
  JS.value_of_digits (digits_of_uint (Pos.to_uint p)) = Zpos p.
Proof.
  unfold JS.value_of_digits. rewrite fold_digits.
  rewrite <- Unsigned.of_uint_alt, Unsigned.of_to. simpl. lia.
Qed.

(** Reading back the decimal digits of an integer gives the integer. *)
Lemma parseInt_decimal (z : Z) : JS.parseInt (JS.decimal z) = Some z.
Proof.
  unfold JS.decimal. destruct z as [|p|p]; [reflexivity| |].
  - cbn [Z.to_int NilZero.string_of_int].
    pose proof (value_of_digits_to_uint p) as Hv.
    pose proof (digits_prefix_string_of_uint (Pos.to_uint p)) as Hd.
    pose proof (Unsigned.to_uint_nonnil p) as Hn.
    destruct (Pos.to_uint p) as [|u|u|u|u|u|u|u|u|u|u]; [congruence| ..];
      unfold JS.parseInt;
      cbn [NilZero.string_of_uint NilEmpty.string_of_uint JS.trim_start] in *;
      (match goal with
       | |- context [JS.is_white_space ?c] =>
           change (JS.is_white_space c) with false
       end); cbv iota; rewrite Hd; cbn [digits_of_uint] in *;
      rewrite Hv; reflexivity.
  - cbn [Z.to_int NilZero.string_of_int].
    pose proof (value_of_digits_to_uint p) as Hv.
    pose proof (digits_prefix_string_of_uint (Pos.to_uint p)) as Hd.
    pose proof (Unsigned.to_uint_nonnil p) as Hn.
    unfold JS.parseInt. cbn [JS.trim_start].
    change (JS.is_white_space "-") with false. cbv iota.
    destruct (Pos.to_uint p) as [|u|u|u|u|u|u|u|u|u|u]; [congruence| ..];
      cbn [NilZero.string_of_uint NilEmpty.string_of_uint] in *;
      rewrite Hd; cbn [digits_of_uint] in *; rewrite Hv; reflexivity.
Qed.

(** A safe integer prints as its decimal digits. *)
Lemma toString_safe (z : Z) :
  JS.isSafeInteger z = true -> JS.toString z = JS.decimal z.
Proof. unfold JS.toString. intros ->. reflexivity. Qed.

(** The value the student [select] stores, [student.id.toString()],
    parses to the student's id when the id is a safe integer. *)
Lemma parseInt_toString (z : Z) :
  JS.isSafeInteger z = true -> JS.parseInt (JS.toString z) = Some z.
Proof. intros H. rewrite (toString_safe z H). apply parseInt_decimal. Qed.

Lemma occurs_toString (k : Z) (log : AttendanceRawData) :
  JS.isSafeInteger k = true ->
  occurs (JS.toString k) log <-> In k (present log).
Proof.
  intros Hk. unfold occurs. rewrite (parseInt_toString k Hk). split.
  - intros (k' & [= <-] & Hin). exact Hin.
  - intros Hin. exists k. auto.
Qed.

(** ** Drill-down by student (C2) *)

Lemma includes_occurs (selected : string) (log : AttendanceRawData) :
  includes (present log) (JS.parseInt selected) = true <-> occurs selected log.
Proof.
  unfold includes, occurs. destruct (JS.parseInt selected) as [k|]; split.
  - intros H. apply existsb_exists in H as (x & Hx & E).
    apply Z.eqb_eq in E. subst. eauto.
  - intros (k' & [= <-] & Hin). apply existsb_exists.
    exists k. split; auto. apply Z.eqb_refl.
  - discriminate.
  - intros (k & Hk & _). discriminate.
Qed.

Lemma historyRecord_records (selected : string) (log : AttendanceRawData) :
  records selected (historyRecord (JS.parseInt selected) log) log.
Proof.
  unfold records, historyRecord. simpl. split; [reflexivity|].
  pose proof (includes_occurs selected log) as H.
  destruct (includes (present log) (JS.parseInt selected)); split; split;
    intros; try discriminate; try reflexivity.
  - apply H; reflexivity.
  - exfalso. apply H0, H. reflexivity.
  - apply H in H0. discriminate.
  - intros Ho. apply H in Ho. discriminate.
Qed.

Lemma is_digit_fold_case (c : ascii) : is_digit c = true -> fold_case c = c.
Proof.
  destruct c as [[] [] [] [] [] [] [] []]; intros H;
    solve [reflexivity | discriminate H].
Qed.

Lemma month_day_fold_string (s : string) :
  month_day s = true -> fold_string s = s.
Proof.
  destruct s as [|m1 [|m2 [|h s]]]; try discriminate.
  intros H.
  destruct h as [[] [] [] [] [] [] [] []]; try discriminate H.
  destruct s as [|d1 [|d2 [|? ?]]]; try discriminate H.
  cbn [month_day] in H. repeat (apply andb_true_iff in H as [H ?]).
  cbn [fold_string].
  rewrite (is_digit_fold_case m1), (is_digit_fold_case m2),
    (is_digit_fold_case d1), (is_digit_fold_case d2) by assumption.
  reflexivity.
Qed.

(** The case-folding collation agrees with the code-unit order on
    "MM-DD" strings. *)
Lemma caseFoldCompare_month_day (a b : string) :
  month_day a = true -> month_day b = true ->
  Z.sgn (caseFoldCompare a b) = codeUnitCompare a b.
Proof.
  intros Ha Hb. unfold caseFoldCompare, codeUnitCompare.
  rewrite (month_day_fold_string a Ha), (month_day_fold_string b Hb).
  destruct (String.compare a b) eqn:E; try reflexivity.
  apply String.compare_eq_iff in E. subst b.
  pose proof (String.compare_antisym a a) as E.
  destruct (String.compare a a); [reflexivity|discriminate E..].
Qed.

Section StudentHistory.

Variable localeCompare : string -> string -> Z.

(** On two "MM-DD" strings the host collation orders as the code units
    do. *)
Hypothesis localeCompare_month_day :
  forall a b, month_day a = true -> month_day b = true ->
              Z.sgn (localeCompare a b) = codeUnitCompare a b.

Lemma history_sorted (n : option Z) (logs : list AttendanceRawData) :
  Forall (fun log => iso_date (date log) = true) logs ->
  StronglySorted date_order
    (JS.sort (fun a b => localeCompare (record_date a) (record_date b))
             (map (historyRecord n) logs)).
Proof.
  intros Hiso.
  apply sort_sorted with (P := fun r => month_day (record_date r) = true).
  - intros a b c. apply String_leb_trans.
  - intros a b Pa Pb Hgt. unfold date_order, String.leb.
    pose proof (localeCompare_month_day _ _ Pa Pb) as E.
    rewrite String.compare_antisym.
    unfold codeUnitCompare in E.
    destruct (String.compare (record_date a) (record_date b)); simpl; auto; lia.
  - intros a b Pa Pb Hle. unfold date_order, String.leb.
    pose proof (localeCompare_month_day _ _ Pa Pb) as E.
    unfold codeUnitCompare in E.
    destruct (String.compare (record_date a) (record_date b)); simpl; auto; lia.
  - apply Forall_map. eapply Forall_impl; [|exact Hiso].
    intros log. simpl. apply iso_date_display.
Qed.

(** C2, as amended.  With a student chosen and logs present, the
    history has one record per log entry; the record made from an entry
    carries its display date, and its status is "Present" exactly when
    the chosen id occurs in the entry's ids and "Absent" exactly when
    it does not, the chosen id being the integer [k] when [k] is a safe
    integer and the selection is the string the [select] holds for it;
    and on logs whose dates are "YYYY-MM-DD" strings the records are in
    ascending lexicographic (code-unit) order of their "MM-DD" dates,
    the host collation ordering two "MM-DD" strings as their code units
    do. *)
Theorem student_history (st : State) :
  selectedStudentId st <> "" -> rawAttendance st <> [] ->
  let history := studentSpecificAttendanceData localeCompare st in
  List.length history = List.length (rawAttendance st)
  /\ (exists logs, Permutation (rawAttendance st) logs
                   /\ Forall2 (records (selectedStudentId st)) history logs)
  /\ (forall k log, JS.isSafeInteger k = true ->
        selectedStudentId st = JS.toString k ->
        (occurs (selectedStudentId st) log <-> In k (present log)))
  /\ (Forall (fun log => iso_date (date log) = true) (rawAttendance st) ->
      StronglySorted date_order history).
Proof.
  intros Hsel Hlogs history. subst history.
  unfold studentSpecificAttendanceData.
  apply String.eqb_neq in Hsel. rewrite Hsel. simpl.
  destruct (length_of (rawAttendance st) =? 0) eqn:E.
  { apply length_of_zero in E. contradiction. }
  set (cmp := fun a b => localeCompare (record_date a) (record_date b)).
  set (n := JS.parseInt (selectedStudentId st)).
  pose proof (sort_perm cmp (map (historyRecord n) (rawAttendance st))) as Hp.
  split; [|split; [|split]].
  - rewrite (Permutation_length Hp). apply length_map.
  - apply Permutation_map_inv in Hp as (logs & Heq & Hperm).
    exists logs. split; [exact Hperm|]. rewrite Heq.
    clear. induction logs; simpl; constructor; auto.
    apply historyRecord_records.
  - intros k log Hk ->. apply occurs_toString, Hk.
  - apply history_sorted.
Qed.

End StudentHistory.

(** C2, counterexample.  The dates of the logs need not be
    "YYYY-MM-DD" strings.  Under a collation that agrees with the
    code-unit order on "MM-DD" strings and compares letters without
    regard to case, logs dated "2025-B" and "2025-a" give the history
    "a", "B": sorted by the collation, not in ascending lexicographic
    order of the display dates. *)
Lemma student_history_collation_counterexample :
  (forall a b, month_day a = true -> month_day b = true ->
               Z.sgn (caseFoldCompare a b) = codeUnitCompare a b)
  /\ selectedStudentId mixedCaseState <> ""
  /\ rawAttendance mixedCaseState <> []
  /\ studentSpecificAttendanceData caseFoldCompare mixedCaseState
     = [ {| record_date := "a"; status := "Absent" |};
         {| record_date := "B"; status := "Present" |} ]
  /\ ("a" <=? "B")%string = false
  /\ ~ StronglySorted date_order
        (studentSpecificAttendanceData caseFoldCompare mixedCaseState).
Proof.
  split; [exact caseFoldCompare_month_day|].
  split; [discriminate|]. split; [discriminate|].
  split; [reflexivity|]. split; [reflexivity|].
  intros H. change (studentSpecificAttendanceData caseFoldCompare mixedCaseState)
    with [ {| record_date := "a"; status := "Absent" |};
           {| record_date := "B"; status := "Present" |} ] in H.
  inversion H as [|? ? _ Hall]; subst.
  inversion Hall as [|? ? Hab _]; subst.
  unfold date_order in Hab. cbn [record_date] in Hab. discriminate.
Qed.

Lemma student_history_witness :
  List.length (studentSpecificAttendanceData codeUnitCompare historyState) = 3%nat
  /\ StronglySorted date_order
       (studentSpecificAttendanceData codeUnitCompare historyState).
Proof.
  destruct (student_history codeUnitCompare
              (fun a b _ _ => codeUnitCompare_sgn a b) historyState
              ltac:(discriminate) ltac:(discriminate))
    as (Hlen & _ & _ & Hsorted).
  split; [exact Hlen|]. apply Hsorted.
  repeat constructor.
Defined.

(** The history of the specification's example, evaluated. *)
Example student_history_example :
  studentSpecificAttendanceData codeUnitCompare historyState
  = [ {| record_date := "05-01"; status := "Absent" |};
      {| record_date := "05-02"; status := "Present" |};
      {| record_date := "05-03"; status := "Absent" |} ].
Proof. reflexivity. Qed.

(* ===================================================================== *)
(** * Number arithmetic: rounding to binary64 *)
(* ===================================================================== *)

(** ** Bit lengths *)

Lemma digits2_bounds (p : positive) :
  2 ^ (Zpos (digits2_pos p) - 1) <= Zpos p < 2 ^ Zpos (digits2_pos p).
Proof.
  induction p as [p IH|p IH|]; cbn [digits2_pos].
  - rewrite Pos2Z.inj_succ, (Pos2Z.inj_xI p).
    replace (Z.succ (Zpos (digits2_pos p)) - 1) with (Z.succ (Zpos (digits2_pos p) - 1)) by lia.
    rewrite !Z.pow_succ_r by lia. lia.
  - rewrite Pos2Z.inj_succ, (Pos2Z.inj_xO p).
    replace (Z.succ (Zpos (digits2_pos p)) - 1) with (Z.succ (Zpos (digits2_pos p) - 1)) by lia.
    rewrite !Z.pow_succ_r by lia. lia.
  - simpl. lia.
Qed.

Lemma digits2_unique (p : positive) (d : Z) :
  2 ^ (d - 1) <= Zpos p < 2 ^ d -> Zpos (digits2_pos p) = d.
Proof.
  intros [Hlo Hhi]. pose proof (digits2_bounds p) as [Hlo' Hhi'].
  assert (Hd : 0 < d).
  { destruct (Z_lt_le_dec 0 d); auto.
    assert (2 ^ d <= 1).
    { destruct (Z.eq_dec d 0) as [->|]; [simpl; lia|].
      rewrite Z.pow_neg_r; lia. }
    lia. }
  assert (d - 1 < Zpos (digits2_pos p)).
  { apply (Z.pow_lt_mono_r_iff 2); lia. }
  assert (Zpos (digits2_pos p) - 1 < d).
  { apply (Z.pow_lt_mono_r_iff 2); lia. }
  lia.
Qed.

Lemma shr_1_located (mrs : shr_record) (num den : Z) :
  0 <= shr_m mrs -> located mrs num den ->
  located (shr_1 mrs) num (2 * den)
  /\ shr_m (shr_1 mrs) = shr_m mrs / 2.
Proof.
  destruct mrs as [m r s]. unfold located. cbn [shr_m shr_r shr_s].
  intros Hm (Hden & Hnum & Hr & Hs).
  assert (Hsticky : r || s = false <-> num = m * den).
  { destruct r, s; simpl; split; intros; try discriminate; try lia.
    all: intuition (try discriminate; try lia). }
  destruct m as [|[p|p|]|p]; try lia; cbn [shr_1 shr_m shr_r shr_s].
  - (* 0 *)
    split; [|reflexivity]. repeat split; try lia; intros; try discriminate;
      try lia.
    + apply Hsticky in H. lia.
    + apply Hsticky. lia.
  - (* 2p+1 *)
    rewrite (Pos2Z.inj_xI p) in *.
    split.
    + repeat split; try lia; intros; try (apply Hsticky in H); try lia.
      apply Hsticky. lia.
    + apply Z.div_unique with (r := 1); lia.
  - (* 2p *)
    rewrite (Pos2Z.inj_xO p) in *.
    split.
    + repeat split; try lia; intros; try discriminate;
        try (apply Hsticky in H); try lia.
      apply Hsticky. lia.
    + apply Z.div_unique with (r := 0); lia.
  - (* 1 *)
    split; [|reflexivity].
    repeat split; try lia; intros; try (apply Hsticky in H); try lia.
    apply Hsticky. lia.
Qed.

Lemma iter_shr_1_located (p : positive) (mrs : shr_record) (num den : Z) :
  0 <= shr_m mrs -> located mrs num den ->
  located (iter_pos shr_1 p mrs) num (den * 2 ^ Zpos p)
  /\ shr_m (iter_pos shr_1 p mrs) = shr_m mrs / 2 ^ Zpos p.
Proof.
  revert mrs den.
  induction p as [p IH|p IH|]; intros mrs den Hm Hloc; cbn [iter_pos].
  - destruct (shr_1_located mrs num den Hm Hloc) as [L1 M1].
    assert (H1 : 0 <= shr_m (shr_1 mrs)) by (rewrite M1; apply Z.div_pos; lia).
    destruct (IH _ _ H1 L1) as [L2 M2].
    assert (H2 : 0 <= shr_m (iter_pos shr_1 p (shr_1 mrs)))
      by (rewrite M2; apply Z.div_pos; lia).
    destruct (IH _ _ H2 L2) as [L3 M3].
    rewrite (Pos2Z.inj_xI p).
    replace (2 * Zpos p + 1) with (1 + Zpos p + Zpos p) by lia.
    rewrite !Z.pow_add_r by lia. change (2 ^ 1) with 2.
    split.
    + replace (den * (2 * 2 ^ Zpos p * 2 ^ Zpos p))
        with (2 * den * 2 ^ Zpos p * 2 ^ Zpos p) by ring. exact L3.
    + rewrite M3, M2, M1. rewrite !Z.div_div by lia. f_equal. ring.
  - destruct (IH _ _ Hm Hloc) as [L2 M2].
    assert (H2 : 0 <= shr_m (iter_pos shr_1 p mrs))
      by (rewrite M2; apply Z.div_pos; lia).
    destruct (IH _ _ H2 L2) as [L3 M3].
    rewrite (Pos2Z.inj_xO p).
    replace (2 * Zpos p) with (Zpos p + Zpos p) by lia.
    rewrite !Z.pow_add_r by lia.
    split.
    + replace (den * (2 ^ Zpos p * 2 ^ Zpos p))
        with (den * 2 ^ Zpos p * 2 ^ Zpos p) by ring. exact L3.
    + rewrite M3, M2. rewrite !Z.div_div by lia. f_equal.
  - change (2 ^ 1) with 2. rewrite (Z.mul_comm den 2).
    apply shr_1_located; assumption.
Qed.

Lemma shr_located (mrs : shr_record) (ex n num den : Z) :
  0 <= n -> 0 <= shr_m mrs -> located mrs num den ->
  snd (shr mrs ex n) = ex + n
  /\ located (fst (shr mrs ex n)) num (den * 2 ^ n)
  /\ shr_m (fst (shr mrs ex n)) = shr_m mrs / 2 ^ n.
Proof.
  intros Hn Hm Hloc. destruct n as [|p|p]; try lia; cbn [shr fst snd].
  - rewrite Z.add_0_r, Z.mul_1_r, Z.div_1_r. auto.
  - split; [reflexivity|]. apply iter_shr_1_located; assumption.
Qed.

Lemma located_exact (m den : Z) :
  0 < den -> located (shr_record_of_loc m loc_Exact) (m * den) den.
Proof.
  intros Hden. unfold located. cbn [shr_record_of_loc shr_m shr_r shr_s].
  split; [assumption|]. split; [lia|]. split; split; intros; try lia;
    try discriminate; auto.
Qed.

Lemma round_nearest_even_located (mrs : shr_record) (num den : Z) :
  located mrs num den ->
  let M := round_nearest_even (shr_m mrs) (loc_of_shr_record mrs) in
  shr_m mrs <= M <= shr_m mrs + 1
  /\ Z.abs (2 * (M * den - num)) <= den.
Proof.
  destruct mrs as [m r s]. unfold located. cbn [shr_m shr_r shr_s].
  intros (Hden & Hnum & Hr & Hs).
  destruct r, s; cbn [loc_of_shr_record round_nearest_even].
  - assert (den <= 2 * (num - m * den)) by (apply Hr; reflexivity).
    split; lia.
  - assert (den <= 2 * (num - m * den)) by (apply Hr; reflexivity).
    assert (num = m * den \/ 2 * (num - m * den) = den) by (apply Hs; reflexivity).
    destruct (Z.even m); split; lia.
  - assert (~ den <= 2 * (num - m * den)) by (rewrite <- Hr; discriminate).
    split; lia.
  - assert (num = m * den \/ 2 * (num - m * den) = den) by (apply Hs; reflexivity).
    assert (~ den <= 2 * (num - m * den)) by (rewrite <- Hr; discriminate).
    split; lia.
Qed.

Lemma le_mul_ge1 (k x : Z) : 1 <= k -> 0 <= x -> x <= k * x.
Proof. intros. nia. Qed.

Lemma pow2_pos (n : Z) : 0 <= n -> 0 < 2 ^ n.
Proof. intros. apply Z.pow_pos_nonneg; lia. Qed.

Lemma binary_round_aux_spec (mx : positive) (ex num den d : Z) (lx : location) :
  Zpos (digits2_pos mx) = d -> 53 <= d ->
  -1074 <= d + ex - 53 -> d + ex - 53 < 971 ->
  located (shr_record_of_loc (Zpos mx) lx) num den ->
  exists m e,
    binary_round_aux 53 1024 false (Zpos mx) ex lx = S754_finite false m e
    /\ 2 ^ 52 <= Zpos m < 2 ^ 53
    /\ d + ex - 53 <= e <= d + ex - 52
    /\ Z.abs (2 * (Zpos m * 2 ^ (e - (d + ex - 53)) * (den * 2 ^ (d - 53)) - num))
       <= den * 2 ^ (d - 53).
Proof.
  intros Hd Hd53 Hlo Hhi Hloc.
  unfold binary_round_aux, shr_fexp.
  cbn [Zdigits2]. rewrite Hd.
  assert (Hfexp : fexp 53 1024 (d + ex) - ex = d - 53).
  { unfold fexp, emin. lia. }
  rewrite Hfexp.
  assert (Hm0 : 0 <= shr_m (shr_record_of_loc (Zpos mx) lx)).
  { destruct lx as [|[]]; simpl; lia. }
  assert (Hmx : shr_m (shr_record_of_loc (Zpos mx) lx) = Zpos mx).
  { destruct lx as [|[]]; reflexivity. }
  destruct (shr_located _ ex (d - 53) num den ltac:(lia) Hm0 Hloc)
    as (He' & Hloc' & Hm').
  destruct (shr (shr_record_of_loc (Zpos mx) lx) ex (d - 53)) as [mrs' e'].
  cbn [fst snd] in He', Hloc', Hm'. rewrite Hmx in Hm'.
  pose proof (digits2_bounds mx) as [Hb1 Hb2]. rewrite Hd in Hb1, Hb2.
  pose proof (pow2_pos (d - 53) ltac:(lia)) as Hp.
  assert (Hsplit1 : 2 ^ (d - 1) = 2 ^ (d - 53) * 2 ^ 52).
  { rewrite <- Z.pow_add_r by lia. f_equal. lia. }
  assert (Hsplit2 : 2 ^ d = 2 ^ (d - 53) * 2 ^ 53).
  { rewrite <- Z.pow_add_r by lia. f_equal. lia. }
  assert (Hm'b : 2 ^ 52 <= shr_m mrs' < 2 ^ 53).
  { rewrite Hm'. split.
    - apply Z.div_le_lower_bound; lia.
    - apply Z.div_lt_upper_bound; lia. }
  destruct (round_nearest_even_located mrs' num _ Hloc') as [HM Herr].
  set (M := round_nearest_even (shr_m mrs') (loc_of_shr_record mrs')) in *.
  destruct (Z.eq_dec M (2 ^ 53)) as [E53|N53].
  - (* the rounding carried into the next binade *)
    change (2 ^ 53) with 9007199254740992 in E53.
    rewrite E53 in Herr |- *.
    replace (fexp 53 1024 (Zdigits2 9007199254740992 + e') - e') with 1
      by (change (Zdigits2 9007199254740992) with 54; unfold fexp, emin; lia).
    cbn [shr iter_pos shr_1 shr_record_of_loc shr_m].
    replace (e' + 1 <=? 1024 - 53) with true by (symmetry; apply Z.leb_le; lia).
    exists 4503599627370496%positive, (e' + 1).
    split; [reflexivity|].
    split; [change (2 ^ 52) with 4503599627370496;
            change (2 ^ 53) with 9007199254740992; lia|].
    split; [lia|].
    replace (e' + 1 - (d + ex - 53)) with 1 by lia.
    change (Zpos 4503599627370496 * 2 ^ 1) with 9007199254740992.
    rewrite (Z.mul_comm den). rewrite (Z.mul_comm den) in Herr. exact Herr.
  - assert (HMb : 2 ^ 52 <= M < 2 ^ 53) by lia.
    destruct M as [|pm|pm] eqn:EM; try (simpl in HMb; lia).
    assert (Hdig : Zpos (digits2_pos pm) = 53)
      by (apply digits2_unique; exact HMb).
    cbn [Zdigits2]. rewrite Hdig.
    replace (fexp 53 1024 (53 + e') - e') with 0 by (unfold fexp, emin; lia).
    cbn [shr shr_record_of_loc shr_m].
    replace (e' <=? 1024 - 53) with true by (symmetry; apply Z.leb_le; lia).
    exists pm, e'. split; [reflexivity|]. split; [exact HMb|]. split; [lia|].
    replace (e' - (d + ex - 53)) with 0 by lia.
    rewrite Z.mul_1_r. exact Herr.
Qed.

Lemma iter_xO (p k : positive) :
  Zpos (Pos.iter xO p k) = Zpos p * 2 ^ Zpos k.
Proof.
  rewrite <- Z.shiftl_mul_pow2 by lia. cbn [Z.shiftl].
  apply (Pos.iter_swap_gen _ _ Zpos xO (Z.mul 2)). reflexivity.
Qed.

Lemma shl_align_spec (mx : positive) (ex ex' : Z) :
  ex' <= ex ->
  exists mz, shl_align mx ex ex' = (mz, ex')
             /\ Zpos mz = Zpos mx * 2 ^ (ex - ex').
Proof.
  intros Hle. unfold shl_align.
  destruct (ex' - ex) as [|k|k] eqn:E; try lia.
  - exists mx. replace ex' with ex by lia. rewrite Z.sub_diag. simpl.
    split; [reflexivity|lia].
  - exists (Pos.iter xO mx k). split; [reflexivity|].
    rewrite iter_xO. f_equal. f_equal. lia.
Qed.

(** An integer below 2^53 is a Number exactly, with a 53-bit mantissa. *)
Lemma of_Z_spec (P : Z) :
  0 < P < 2 ^ 53 ->
  exists m e, JS.of_Z P = S754_finite false m e
              /\ 2 ^ 52 <= Zpos m < 2 ^ 53
              /\ -52 <= e <= 0
              /\ Zpos m = P * 2 ^ (- e).
Proof.
  intros [HP0 HP]. destruct P as [|p|p]; try lia.
  unfold JS.of_Z, binary_normalize, binary_round, JS.prec, JS.emax.
  set (d := Zpos (digits2_pos p)).
  pose proof (digits2_bounds p) as [Hb1 Hb2]. fold d in Hb1, Hb2.
  assert (Hd : 1 <= d <= 53).
  { split; [unfold d; lia|].
    destruct (Z_le_gt_dec d 53); auto.
    assert (2 ^ 53 <= 2 ^ (d - 1)) by (apply Z.pow_le_mono_r; lia). lia. }
  replace (fexp 53 1024 (d + 0)) with (d - 53) by (unfold fexp, emin; lia).
  destruct (shl_align_spec p 0 (d - 53) ltac:(lia)) as (mz & -> & Hmz).
  replace (0 - (d - 53)) with (53 - d) in Hmz by lia.
  pose proof (pow2_pos (53 - d) ltac:(lia)) as Hpp.
  assert (Hs1 : 2 ^ 52 = 2 ^ (d - 1) * 2 ^ (53 - d)).
  { rewrite <- Z.pow_add_r by lia. f_equal. lia. }
  assert (Hs2 : 2 ^ 53 = 2 ^ d * 2 ^ (53 - d)).
  { rewrite <- Z.pow_add_r by lia. f_equal. lia. }
  assert (Hmzb : 2 ^ 52 <= Zpos mz < 2 ^ 53).
  { rewrite Hmz, Hs1, Hs2. split.
    - apply Z.mul_le_mono_nonneg_r; lia.
    - apply Z.mul_lt_mono_pos_r; lia. }
  destruct (binary_round_aux_spec mz (d - 53) (Zpos mz * 1) 1 53 loc_Exact)
    as (m & e & Hr & Hm & He & Herr); try lia.
  { apply digits2_unique. exact Hmzb. }
  { apply located_exact. lia. }
  exists m, e. split; [exact Hr|]. split; [exact Hm|].
  change (2 ^ (53 - 53)) with 1 in Herr.
  assert (Hee : e = d - 53).
  { destruct (Z.eq_dec e (d - 53)) as [|Hne]; auto.
    replace (e - (53 + (d - 53) - 53)) with 1 in Herr by lia.
    change (2 ^ 1) with 2 in Herr. lia. }
  subst e. split; [lia|].
  replace (d - 53 - (53 + (d - 53) - 53)) with 0 in Herr by lia.
  change (2 ^ 0) with 1 in Herr.
  replace (- (d - 53)) with (53 - d) by lia. lia.
Qed.

Lemma new_location_located (m2 q r : Z) :
  0 < m2 -> 0 <= r < m2 ->
  located (shr_record_of_loc q (new_location m2 r)) (m2 * q + r) m2.
Proof.
  intros Hm2 Hr. unfold new_location, new_location_even, new_location_odd.
  destruct (Z.even m2) eqn:Ev.
  - destruct (Z.eqb_spec r 0) as [->|Hr0].
    + rewrite Z.add_0_r, Z.mul_comm. apply located_exact. assumption.
    + unfold located.
      destruct (Z.compare_spec (2 * r) m2); cbn [shr_record_of_loc shr_m shr_r shr_s];
        (split; [assumption|]); (split; [lia|]);
        split; split; intros; try discriminate; try lia; try reflexivity.
  - assert (Hodd : 2 * r <> m2).
    { intros E. rewrite <- E, Z.even_mul in Ev. discriminate. }
    destruct (Z.eqb_spec r 0) as [->|Hr0].
    + rewrite Z.add_0_r, Z.mul_comm. apply located_exact. assumption.
    + unfold located.
      destruct (Z.compare_spec (2 * r + 1) m2); cbn [shr_record_of_loc shr_m shr_r shr_s];
        (split; [assumption|]); (split; [lia|]);
        split; split; intros; try discriminate; try lia; try reflexivity.
Qed.

(** Division of two integers as Numbers: the quotient is within half a
    unit in the last place of the exact ratio. *)
Lemma div_spec (P R : Z) :
  0 < P -> P <= R -> R < 2 ^ 53 ->
  exists m e, JS.div (JS.of_Z P) (JS.of_Z R) = S754_finite false m e
              /\ 2 ^ 52 <= Zpos m < 2 ^ 53
              /\ -106 <= e <= -51
              /\ Z.abs (2 * (Zpos m * R - P * 2 ^ (- e))) <= R.
Proof.
  intros HP0 HPR HR.
  destruct (of_Z_spec P ltac:(lia)) as (mP & eP & -> & HmP & HeP & HvP).
  destruct (of_Z_spec R ltac:(lia)) as (mR & eR & -> & HmR & HeR & HvR).
  set (tP := - eP) in *. set (tR := - eR) in *.
  pose proof (pow2_pos tP ltac:(lia)) as HtP.
  pose proof (pow2_pos tR ltac:(lia)) as HtR.
  assert (Htt : tR <= tP).
  { destruct (Z_le_gt_dec tR tP); auto.
    assert (2 ^ tR = 2 ^ (tR - tP - 1) * 2 * 2 ^ tP).
    { change 2 with (2 ^ 1) at 3. rewrite <- !Z.pow_add_r by lia.
      f_equal. lia. }
    pose proof (pow2_pos (tR - tP - 1) ltac:(lia)).
    assert (Zpos mP * (2 ^ (tR - tP - 1) * 2) <= Zpos mR) by nia.
    nia. }
  unfold JS.div, SFdiv, SFdiv_core_binary, JS.prec, JS.emax.
  cbn [Zdigits2].
  rewrite (digits2_unique mP 53 HmP), (digits2_unique mR 53 HmR).
  replace (Z.min (fexp 53 1024 (53 + eP - (53 + eR))) (eP - eR))
    with (eP - eR - 53) by (unfold fexp, emin; lia).
  replace (eP - eR - (eP - eR - 53)) with 53 by lia.
  rewrite Z.shiftl_mul_pow2 by lia.
  pose proof (Z_div_mod (Zpos mP * 2 ^ 53) (Zpos mR) ltac:(lia)) as Hdm.
  destruct (Z.div_eucl (Zpos mP * 2 ^ 53) (Zpos mR)) as [q r].
  destruct Hdm as [Hq Hr].
  assert (Hqb : 2 ^ 52 <= q < 2 ^ 54).
  { change (2 ^ 54) with (2 * 2 ^ 53). split; nia. }
  destruct q as [|pq|pq]; try (simpl in Hqb; lia).
  set (d := Zpos (digits2_pos pq)).
  pose proof (digits2_bounds pq) as [Hd1 Hd2]. fold d in Hd1, Hd2.
  assert (Hd : 53 <= d <= 54).
  { split.
    - destruct (Z_le_gt_dec 53 d); auto.
      assert (2 ^ d <= 2 ^ 52) by (apply Z.pow_le_mono_r; lia). lia.
    - destruct (Z_le_gt_dec d 54); auto.
      assert (2 ^ 54 <= 2 ^ (d - 1)) by (apply Z.pow_le_mono_r; lia). lia. }
  destruct (binary_round_aux_spec pq (eP - eR - 53) (Zpos mP * 2 ^ 53) (Zpos mR)
              d (new_location (Zpos mR) r))
    as (m & e & Hres & Hm & He & Herr); try lia; try reflexivity.
  { rewrite Hq. apply new_location_located; lia. }
  cbn [xorb]. exists m, e. split; [exact Hres|]. split; [exact Hm|].
  split; [unfold tP, tR in *; lia|].
  set (E := d + (eP - eR - 53) - 53) in *.
  set (c := 2 ^ (e - E) * 2 ^ tR * 2 ^ (d - 53)).
  pose proof (pow2_pos (e - E) ltac:(lia)) as Hs2.
  pose proof (pow2_pos (d - 53) ltac:(lia)) as Hs1.
  assert (Hc : 0 < c) by (unfold c; repeat apply Z.mul_pos_pos; assumption).
  assert (Hpow : 2 ^ (- e) * c = 2 ^ tP * 2 ^ 53).
  { unfold c. rewrite <- !Z.pow_add_r by (unfold tP, tR, E in *; lia).
    f_equal. unfold tP, tR, E in *. lia. }
  assert (Hone : 1 <= 2 ^ (e - E)) by lia.
  apply (Z.mul_le_mono_pos_l _ _ c Hc).
  rewrite <- (Z.abs_eq c) at 1 by lia. rewrite <- Z.abs_mul.
  replace (c * (2 * (Zpos m * R - P * 2 ^ (- e))))
    with (2 * (Zpos m * 2 ^ (e - E) * (R * 2 ^ tR * 2 ^ (d - 53))
               - P * (2 ^ (- e) * c)))
    by (unfold c; ring).
  rewrite Hpow. rewrite HvR, HvP in Herr.
  replace (P * (2 ^ tP * 2 ^ 53)) with (P * 2 ^ tP * 2 ^ 53) by ring.
  eapply Z.le_trans; [exact Herr|].
  unfold c.
  replace (2 ^ (e - E) * 2 ^ tR * 2 ^ (d - 53) * R)
    with (2 ^ (e - E) * (R * 2 ^ tR * 2 ^ (d - 53))) by ring.
  assert (0 <= R * 2 ^ tR * 2 ^ (d - 53))
    by (repeat apply Z.mul_nonneg_nonneg; lia).
  apply le_mul_ge1; assumption.
Qed.

Lemma mul100_spec (m1 : positive) (e1 : Z) :
  2 ^ 52 <= Zpos m1 < 2 ^ 53 -> -200 <= e1 <= -8 ->
  exists m e, JS.mul (S754_finite false m1 e1) (JS.of_Z 100) = S754_finite false m e
              /\ 2 ^ 52 <= Zpos m < 2 ^ 53
              /\ e1 + 6 <= e <= e1 + 8
              /\ Z.abs (2 * (Zpos m * 2 ^ (- e1) - 100 * Zpos m1 * 2 ^ (- e)))
                 <= 2 ^ (- e1).
Proof.
  intros Hm1 He1.
  change (JS.of_Z 100) with (S754_finite false 7036874417766400 (-46)).
  unfold JS.mul, SFmul, JS.prec, JS.emax. cbn [xorb].
  set (mx := (m1 * 7036874417766400)%positive).
  assert (Hmx : Zpos mx = Zpos m1 * (100 * 2 ^ 46)) by (unfold mx; reflexivity).
  set (d := Zpos (digits2_pos mx)).
  pose proof (digits2_bounds mx) as [Hd1 Hd2]. fold d in Hd1, Hd2.
  assert (Hmxb : 2 ^ 104 <= Zpos mx < 2 ^ 106).
  { rewrite Hmx. change (2 ^ 104) with (2 ^ 52 * 2 ^ 52).
    change (2 ^ 106) with (2 ^ 53 * 2 ^ 53).
    change (100 * 2 ^ 46) with 7036874417766400.
    change (2 ^ 52) with 4503599627370496 in *.
    change (2 ^ 53) with 9007199254740992 in *. lia. }
  assert (Hd : 105 <= d <= 106).
  { split.
    - destruct (Z_le_gt_dec 105 d); auto.
      assert (2 ^ d <= 2 ^ 104) by (apply Z.pow_le_mono_r; lia). lia.
    - destruct (Z_le_gt_dec d 106); auto.
      assert (2 ^ 106 <= 2 ^ (d - 1)) by (apply Z.pow_le_mono_r; lia). lia. }
  destruct (binary_round_aux_spec mx (e1 + -46) (Zpos mx * 1) 1 d loc_Exact)
    as (m & e & Hres & Hm & He & Herr); try lia; try reflexivity.
  { apply located_exact. lia. }
  exists m, e. split; [exact Hres|]. split; [exact Hm|]. split; [lia|].
  set (E := d + (e1 + -46) - 53) in *.
  set (A := 2 ^ (- e1)). set (B := 2 ^ (- e)).
  pose proof (pow2_pos (e - E) ltac:(lia)) as Hs2.
  pose proof (pow2_pos (d - 53) ltac:(lia)) as Hs1.
  pose proof (pow2_pos (- e) ltac:(lia)) as HB. fold B in HB.
  assert (Hpow : 2 ^ (e - E) * 2 ^ (d - 53) * B = 2 ^ 46 * A).
  { unfold A, B. rewrite <- !Z.pow_add_r by (unfold E in *; lia).
    f_equal. unfold E in *. lia. }
  assert (Hone : 1 <= 2 ^ (e - E)) by lia.
  assert (H46 : 0 < 2 ^ 46) by (apply pow2_pos; lia).
  apply (Z.mul_le_mono_pos_l _ _ (2 ^ 46) H46).
  rewrite <- (Z.abs_eq (2 ^ 46)) at 1 by lia. rewrite <- Z.abs_mul.
  replace (2 ^ 46 * (2 * (Zpos m * A - 100 * Zpos m1 * B)))
    with (2 * (Zpos m * (2 ^ 46 * A) - Zpos mx * B))
    by (rewrite Hmx; ring).
  rewrite <- Hpow.
  replace (2 * (Zpos m * (2 ^ (e - E) * 2 ^ (d - 53) * B) - Zpos mx * B))
    with (B * (2 * (Zpos m * 2 ^ (e - E) * (1 * 2 ^ (d - 53)) - Zpos mx * 1)))
    by ring.
  rewrite Z.abs_mul, (Z.abs_eq B) by lia.
  replace (2 ^ (e - E) * 2 ^ (d - 53) * B) with (B * (2 ^ (e - E) * 2 ^ (d - 53)))
    by ring.
  apply Z.mul_le_mono_nonneg_l; [lia|].
  eapply Z.le_trans; [exact Herr|]. nia.
Qed.

(** ** From the rounding errors to the printed tenth *)

(** Cancelling a positive factor. *)
Lemma mul_lt_cancel (c x y : Z) : 0 < c -> c * x < c * y -> x < y.
Proof. intros Hc H. apply (Z.mul_lt_mono_pos_l c); assumption. Qed.

Lemma mul_le_cancel (c x y : Z) : 0 < c -> c * x <= c * y -> x <= y.
Proof. intros Hc H. apply (Z.mul_le_mono_pos_l _ _ c); assumption. Qed.

Lemma div_bounds (a b q : Z) : 0 < b -> b * q <= a < b * (q + 1) -> a / b = q.
Proof. intros Hb H. symmetry. apply Z.div_unique with (r := a - b * q); lia. Qed.

Section Tenths.
Variables P R m1 A m2 B : Z.
Hypothesis HP : 0 < P <= R.
Hypothesis HR : R < 2 ^ 32.
Hypothesis Hm1 : 2 ^ 52 <= m1.
Hypothesis Hm2 : 2 ^ 52 <= m2.
Hypothesis HA : 0 < A.
Hypothesis HB : 0 < B.
Hypothesis H1 : Z.abs (2 * (m1 * R - P * A)) <= R.
Hypothesis H2 : Z.abs (2 * (m2 * A - 100 * m1 * B)) <= A.

Lemma quotient_le_scale : m1 <= A.
Proof.
  assert (P * A <= R * A) by (apply Z.mul_le_mono_nonneg_r; lia).
  assert (2 * (m1 * R) <= (2 * A + 1) * R) by lia.
  assert (2 * m1 <= 2 * A + 1).
  { apply (mul_le_cancel R); [lia|]. lia. }
  lia.
Qed.

Lemma product_le_scale : m2 <= 100 * B.
Proof.
  pose proof quotient_le_scale.
  assert (m1 * B <= A * B) by (apply Z.mul_le_mono_nonneg_r; lia).
  assert (2 * (m2 * A) <= (200 * B + 1) * A) by lia.
  assert (2 * m2 <= 200 * B + 1).
  { apply (mul_le_cancel A); [lia|]. lia. }
  lia.
Qed.

Lemma scales_large : 2000 * R < A /\ 20 * R < B.
Proof.
  pose proof quotient_le_scale. pose proof product_le_scale.
  change (2 ^ 52) with 4503599627370496 in *.
  change (2 ^ 32) with 4294967296 in *. lia.
Qed.

Lemma error_margin : 10 * (A * R) + 1000 * (B * R) < A * B.
Proof.
  destruct scales_large as [Ha Hb].
  assert (20 * R * A <= B * A) by (apply Z.mul_le_mono_nonneg_r; lia).
  assert (2000 * R * B < A * B) by (apply Z.mul_lt_mono_pos_r; lia).
  lia.
Qed.

Lemma error_total :
  Z.abs (20 * m2 * (R * A) - 2000 * P * (A * B))
  <= 10 * (A * R) + 1000 * (B * R).
Proof.
  replace (20 * m2 * (R * A) - 2000 * P * (A * B))
    with (10 * R * (2 * (m2 * A - 100 * m1 * B))
          + 1000 * B * (2 * (m1 * R - P * A))) by ring.
  eapply Z.le_trans; [apply Z.abs_triangle|].
  rewrite (Z.abs_mul (10 * R)), (Z.abs_mul (1000 * B)).
  rewrite (Z.abs_eq (10 * R)), (Z.abs_eq (1000 * B)) by lia.
  assert (10 * R * Z.abs (2 * (m2 * A - 100 * m1 * B)) <= 10 * R * A)
    by (apply Z.mul_le_mono_nonneg_l; lia).
  assert (1000 * B * Z.abs (2 * (m1 * R - P * A)) <= 1000 * B * R)
    by (apply Z.mul_le_mono_nonneg_l; lia).
  lia.
Qed.

Let k := (2000 * P + R) / (2 * R).
Let n := (20 * m2 + B) / (2 * B).

Lemma half_up_bounds : (2 * k - 1) * R <= 2000 * P < (2 * k + 1) * R.
Proof.
  unfold k.
  pose proof (Z.mul_div_le (2000 * P + R) (2 * R) ltac:(lia)).
  pose proof (Z.mul_succ_div_gt (2000 * P + R) (2 * R) ltac:(lia)).
  lia.
Qed.

Lemma half_up_range : 0 <= k <= 1000.
Proof.
  unfold k. split.
  - apply Z.div_pos; lia.
  - apply Z.lt_succ_r. apply Z.div_lt_upper_bound; lia.
Qed.

Lemma tenths_upper : 20 * m2 < (2 * k + 1) * B.
Proof.
  pose proof error_margin. pose proof error_total as Ht.
  pose proof half_up_bounds as [_ Hk].
  assert (HRA : 0 < R * A) by (apply Z.mul_pos_pos; lia).
  assert (HAB : 0 < A * B) by (apply Z.mul_pos_pos; lia).
  apply (mul_lt_cancel (R * A)); [assumption|].
  assert (2000 * P + 1 <= (2 * k + 1) * R) by lia.
  assert ((2000 * P + 1) * (A * B) <= (2 * k + 1) * R * (A * B))
    by (apply Z.mul_le_mono_nonneg_r; lia).
  replace (R * A * ((2 * k + 1) * B)) with ((2 * k + 1) * R * (A * B)) by ring.
  replace (R * A * (20 * m2)) with (20 * m2 * (R * A)) by ring.
  lia.
Qed.

Lemma tenths_lower_weak : (2 * k - 3) * B < 20 * m2.
Proof.
  pose proof error_margin. pose proof error_total as Ht.
  pose proof half_up_bounds as [Hk _].
  assert (HRA : 0 < R * A) by (apply Z.mul_pos_pos; lia).
  assert (HAB : 0 < A * B) by (apply Z.mul_pos_pos; lia).
  apply (mul_lt_cancel (R * A)); [assumption|].
  assert ((2 * k - 1) * R * (A * B) <= 2000 * P * (A * B))
    by (apply Z.mul_le_mono_nonneg_r; lia).
  assert (1 * (A * B) <= R * (A * B))
    by (apply Z.mul_le_mono_nonneg_r; lia).
  replace (R * A * ((2 * k - 3) * B))
    with ((2 * k - 1) * R * (A * B) - 2 * (R * (A * B))) by ring.
  replace (R * A * (20 * m2)) with (20 * m2 * (R * A)) by ring.
  lia.
Qed.

Lemma tenths_lower :
  (2000 * P) mod (2 * R) <> R -> (2 * k - 1) * B < 20 * m2.
Proof.
  intros Htie.
  pose proof error_margin. pose proof error_total as Ht.
  pose proof half_up_bounds as [Hk _].
  assert (HRA : 0 < R * A) by (apply Z.mul_pos_pos; lia).
  assert (HAB : 0 < A * B) by (apply Z.mul_pos_pos; lia).
  assert (Hne : (2 * k - 1) * R <> 2000 * P).
  { intros E. apply Htie.
    replace (2000 * P) with (R + (k - 1) * (2 * R)) by lia.
    rewrite Z.mod_add by lia. apply Z.mod_small. lia. }
  apply (mul_lt_cancel (R * A)); [assumption|].
  assert (((2 * k - 1) * R + 1) * (A * B) <= 2000 * P * (A * B))
    by (apply Z.mul_le_mono_nonneg_r; lia).
  replace (R * A * ((2 * k - 1) * B)) with ((2 * k - 1) * R * (A * B)) by ring.
  replace (R * A * (20 * m2)) with (20 * m2 * (R * A)) by ring.
  lia.
Qed.

Theorem tenths_of_rounded :
  k - 1 <= n <= k
  /\ ((2000 * P) mod (2 * R) <> R -> n = k)
  /\ 0 <= n <= 1000.
Proof.
  pose proof tenths_upper as Hu. pose proof tenths_lower_weak as Hl.
  pose proof half_up_range as Hk.
  assert (Hn1 : k - 1 <= n).
  { unfold n. apply Z.div_le_lower_bound; lia. }
  assert (Hn2 : n <= k).
  { unfold n. apply Z.lt_succ_r. apply Z.div_lt_upper_bound; lia. }
  split; [lia|]. split.
  - intros Htie. pose proof (tenths_lower Htie).
    unfold n. apply div_bounds; lia.
  - split; [|lia]. unfold n. apply Z.div_pos; lia.
Qed.
End Tenths.

(** ** The percentage of a day (C1) *)

Lemma double_eqb_eq (x y : JS.double) : double_eqb x y = true -> x = y.
Proof.
  destruct x, y; simpl; try discriminate; auto.
  - intros H. apply Bool.eqb_prop in H. congruence.
  - intros H. apply Bool.eqb_prop in H. congruence.
  - intros H. apply andb_true_iff in H as [H He].
    apply andb_true_iff in H as [Hs Hm].
    apply Bool.eqb_prop in Hs. apply Pos.eqb_eq in Hm. apply Z.eqb_eq in He.
    congruence.
Qed.

Lemma tenths_checked : forallb tenth_ok (map Z.of_nat (seq 0 1001)) = true.
Proof. vm_compute. reflexivity. Qed.

Lemma tenth_ok_range (n : Z) : 0 <= n <= 1000 -> tenth_ok n = true.
Proof.
  intros Hn. pose proof tenths_checked as H.
  rewrite forallb_forall in H. apply H.
  apply in_map_iff. exists (Z.to_nat n). split; [lia|].
  apply in_seq. lia.
Qed.

Lemma roundToOneDecimal_finite (m : positive) (e : Z) :
  2 ^ 52 <= Zpos m < 2 ^ 53 -> e < 0 ->
  let n := (20 * Zpos m + 2 ^ (- e)) / (2 * 2 ^ (- e)) in
  0 <= n <= 1000 ->
  roundToOneDecimal (S754_finite false m e) = oneDecimal n
  /\ JS.leb (JS.of_Z 0) (oneDecimal n) = true
  /\ JS.leb (oneDecimal n) (JS.of_Z 100) = true.
Proof.
  intros Hm He n Hn.
  pose proof (tenth_ok_range n Hn) as Hok. unfold tenth_ok in Hok.
  apply andb_true_iff in Hok as [Hok H100].
  apply andb_true_iff in Hok as [Hparse H0].
  apply double_eqb_eq in Hparse.
  split; [|split; assumption].
  unfold roundToOneDecimal, JS.toFixed1.
  assert (Hbig : JS.ge_1e21 m e = false).
  { unfold JS.ge_1e21. destruct (Z.leb_spec 0 e); [lia|].
    apply Z.leb_gt. pose proof (pow2_pos (- e) ltac:(lia)).
    change (2 ^ 53) with 9007199254740992 in Hm.
    change (10 ^ 21) with 1000000000000000000000. nia. }
  rewrite Hbig.
  assert (Ht : JS.tenths m e = n).
  { unfold JS.tenths. destruct (Z.leb_spec 0 e); [lia|].
    unfold n. f_equal. replace (1 - e) with (1 + - e) by lia.
    rewrite Z.pow_add_r by lia. reflexivity. }
  rewrite Ht. exact Hparse.
Qed.

Lemma percentage_finite (P R : Z) :
  0 < P -> P <= R -> R < 2 ^ 32 ->
  exists m e,
    JS.mul (JS.div (JS.of_Z P) (JS.of_Z R)) (JS.of_Z 100) = S754_finite false m e
    /\ 2 ^ 52 <= Zpos m < 2 ^ 53 /\ e < 0
    /\ let n := (20 * Zpos m + 2 ^ (- e)) / (2 * 2 ^ (- e)) in
       half_up_tenths P R - 1 <= n <= half_up_tenths P R
       /\ ((2000 * P) mod (2 * R) <> R -> n = half_up_tenths P R)
       /\ 0 <= n <= 1000.
Proof.
  intros HP HPR HR.
  assert (HR53 : R < 2 ^ 53).
  { change (2 ^ 32) with 4294967296 in HR.
    change (2 ^ 53) with 9007199254740992. lia. }
  destruct (div_spec P R HP HPR HR53) as (m1 & e1 & -> & Hm1 & He1 & H1).
  destruct (mul100_spec m1 e1 Hm1 ltac:(lia)) as (m2 & e2 & -> & Hm2 & He2 & H2).
  exists m2, e2. split; [reflexivity|]. split; [exact Hm2|]. split; [lia|].
  apply (tenths_of_rounded P R (Zpos m1) (2 ^ (- e1)) (Zpos m2) (2 ^ (- e2)));
    try lia; try (apply pow2_pos; lia); assumption.
Qed.

Lemma percentage_zero (R : Z) :
  0 < R -> R < 2 ^ 32 ->
  roundToOneDecimal (JS.mul (JS.div (JS.of_Z 0) (JS.of_Z R)) (JS.of_Z 100))
  = oneDecimal 0.
Proof.
  intros HR0 HR.
  assert (HR53 : 0 < R < 2 ^ 53).
  { change (2 ^ 32) with 4294967296 in HR.
    change (2 ^ 53) with 9007199254740992. lia. }
  destruct (of_Z_spec R HR53) as (m & e & -> & _). reflexivity.
Qed.

(** The tenth computed by [toFixed(1)] is the nearest one, halves going
    up. *)
Lemma nearest_tenth_finite (m : positive) (e : Z) :
  e < 0 ->
  nearest_tenth (S754_finite false m e)
                ((20 * Zpos m + 2 ^ (- e)) / (2 * 2 ^ (- e))).
Proof.
  intros He. unfold nearest_tenth.
  rewrite (Z.max_l (- e) 0), (Z.max_r e 0) by lia.
  change (2 ^ 0) with 1.
  pose proof (pow2_pos (- e) ltac:(lia)) as HB.
  set (B := 2 ^ (- e)) in *.
  pose proof (Z.mul_div_le (20 * Zpos m + B) (2 * B) ltac:(lia)) as Hlo.
  pose proof (Z.mul_succ_div_gt (20 * Zpos m + B) (2 * B) ltac:(lia)) as Hhi.
  set (n := (20 * Zpos m + B) / (2 * B)) in *.
  split; lia.
Qed.

(** At an exact halfway point [2000 P = (2 k - 1) R], [k] the half-up
    tenth: the rounded product gives [k] exactly when it is not below
    the exact ratio. *)
Lemma tie_exact (P R : Z) :
  0 < R -> (2000 * P) mod (2 * R) = R ->
  2000 * P = (2 * half_up_tenths P R - 1) * R.
Proof.
  intros HR Htie. unfold half_up_tenths.
  pose proof (Z.div_mod (2000 * P) (2 * R) ltac:(lia)) as E.
  rewrite Htie in E.
  set (q := 2000 * P / (2 * R)) in *.
  replace ((2000 * P + R) / (2 * R)) with (q + 1); [lia|].
  symmetry. apply div_bounds; lia.
Qed.

Lemma tie_rounds_up_iff (P R m B n : Z) :
  0 < R -> 0 < B ->
  (2000 * P) mod (2 * R) = R ->
  half_up_tenths P R - 1 <= n <= half_up_tenths P R ->
  (2 * n - 1) * B <= 20 * (m * 1) /\ 20 * (m * 1) < (2 * n + 1) * B ->
  n = half_up_tenths P R <-> 100 * P * B <= m * 1 * R.
Proof.
  intros HR HB Htie Hn [Hlo Hhi].
  pose proof (tie_exact P R HR Htie) as E.
  set (k := half_up_tenths P R) in *.
  rewrite Z.mul_1_r in *.
  split.
  - intros ->. apply (mul_le_cancel 20); [lia|].
    replace (20 * (100 * P * B)) with (2000 * P * B) by ring. rewrite E.
    replace ((2 * k - 1) * R * B) with (R * ((2 * k - 1) * B)) by ring.
    replace (20 * (m * R)) with (R * (20 * m)) by ring.
    apply Z.mul_le_mono_nonneg_l; lia.
  - intros H. destruct (Z.eq_dec n k) as [|N]; [assumption|exfalso].
    assert (n = k - 1) by lia. subst n.
    replace (2 * (k - 1) + 1) with (2 * k - 1) in Hhi by ring.
    assert (R * (20 * m) < R * ((2 * k - 1) * B)) as Hc
      by (apply Z.mul_lt_mono_pos_l; lia).
    assert (20 * (100 * P * B) <= 20 * (m * R)) as Hd by lia.
    replace (20 * (100 * P * B)) with (2000 * P * B) in Hd by ring.
    rewrite E in Hd.
    replace ((2 * k - 1) * R * B) with (R * ((2 * k - 1) * B)) in Hd by ring.
    lia.
Qed.

(** C1, as amended.  For a roster of [R] students, [0 < R < 2^32] (the
    bound on array lengths), and a log entry with [P <= R] present ids,
    the stored percentage is a one-decimal Number [n / 10] between 0 and
    100, namely the binary64 value of [(P / R) * 100] rounded to one
    decimal with halves going up.  It is [P / R * 100] rounded half-up
    whenever that ratio is not exactly halfway between two tenths; at a
    halfway point it is the half-up value exactly when the binary64
    product is not below the ratio, and the tenth just below it
    otherwise. *)
Theorem percentage_one_decimal (students : list Student) (log : AttendanceRawData) :
  let R := length_of students in
  let P := length_of (present log) in
  0 < R -> R < 2 ^ 32 -> P <= R ->
  exists n,
    attendancePercentage (chartPoint R log) = oneDecimal n
    /\ 0 <= n <= 1000
    /\ JS.leb (JS.of_Z 0) (oneDecimal n) = true
    /\ JS.leb (oneDecimal n) (JS.of_Z 100) = true
    /\ nearest_tenth (percentage R log) n
    /\ half_up_tenths P R - 1 <= n <= half_up_tenths P R
    /\ ((2000 * P) mod (2 * R) <> R -> n = half_up_tenths P R)
    /\ ((2000 * P) mod (2 * R) = R ->
        (n = half_up_tenths P R <-> not_below (percentage R log) (100 * P) R)).
Proof.
  intros R P HR0 HR HPR.
  assert (HP0 : 0 <= P) by (unfold P, length_of; lia).
  cbn [chartPoint attendancePercentage]. unfold percentage. fold P.
  replace (0 <? R) with true by (symmetry; apply Z.ltb_lt; exact HR0).
  destruct (Z.eq_dec P 0) as [E0|N0].
  - rewrite E0. exists 0. rewrite percentage_zero by assumption.
    assert (HR53 : 0 < R < 2 ^ 53).
    { change (2 ^ 32) with 4294967296 in HR.
      change (2 ^ 53) with 9007199254740992. lia. }
    destruct (of_Z_spec R HR53) as (m & e & -> & _).
    split; [reflexivity|]. split; [lia|].
    split; [reflexivity|]. split; [reflexivity|].
    split; [reflexivity|].
    assert (Hk : half_up_tenths 0 R = 0).
    { unfold half_up_tenths. apply div_bounds; lia. }
    rewrite Hk. split; [lia|]. split; [auto|].
    intros Htie. exfalso. rewrite Z.mul_0_r, Z.mod_0_l in Htie; lia.
  - destruct (percentage_finite P R ltac:(lia) HPR HR)
      as (m & e & -> & Hm & He & Hn).
    cbv zeta in Hn. destruct Hn as (Hk & Htie & Hrange).
    destruct (roundToOneDecimal_finite m e Hm He Hrange) as (Hround & H0 & H100).
    pose proof (nearest_tenth_finite m e He) as Hnear.
    eexists. split; [exact Hround|].
    split; [exact Hrange|]. split; [exact H0|]. split; [exact H100|].
    split; [exact Hnear|]. split; [exact Hk|]. split; [exact Htie|].
    intros Hhalf. unfold not_below.
    unfold nearest_tenth in Hnear.
    rewrite (Z.max_l (- e) 0), (Z.max_r e 0) in * by lia.
    change (2 ^ 0) with 1 in *.
    apply tie_rounds_up_iff; try assumption.
    apply pow2_pos; lia.
Qed.

Lemma percentage_one_decimal_witness :
  exists n,
    attendancePercentage
      (chartPoint (length_of sampleStudents) (attendance "2025-05-01" 3))
    = oneDecimal n
    /\ 0 <= n <= 1000
    /\ JS.leb (JS.of_Z 0) (oneDecimal n) = true
    /\ JS.leb (oneDecimal n) (JS.of_Z 100) = true
    /\ nearest_tenth
         (percentage (length_of sampleStudents) (attendance "2025-05-01" 3)) n
    /\ half_up_tenths 3 4 - 1 <= n <= half_up_tenths 3 4
    /\ ((2000 * 3) mod (2 * 4) <> 4 -> n = half_up_tenths 3 4)
    /\ ((2000 * 3) mod (2 * 4) = 4 ->
        (n = half_up_tenths 3 4
         <-> not_below
               (percentage (length_of sampleStudents) (attendance "2025-05-01" 3))
               (100 * 3) 4)).
Proof.
  apply (percentage_one_decimal sampleStudents (attendance "2025-05-01" 3)).
  - reflexivity.
  - reflexivity.
  - discriminate.
Defined.

(** C1, counterexample.  With 80 students of whom 23 are present the
    exact percentage is 28.75, which rounds half-up to 28.8; the page
    stores 28.7, because the binary64 product is 28.749999999999996. *)
Lemma percentage_half_up_counterexample :
  length_of (roster 80) = 80
  /\ length_of (present (attendance "2025-05-01" 23)) = 23
  /\ half_up_tenths 23 80 = 288
  /\ percentage 80 (attendance "2025-05-01" 23)
     = S754_finite false 8092405580431359 (-48)
  /\ JS.toFixed1 (percentage 80 (attendance "2025-05-01" 23)) = Some "28.7"
  /\ map attendancePercentage
       (processedChartData
          (chartDataEffect (loaded (roster 80) [attendance "2025-05-01" 23])))
     = [oneDecimal 287]
  /\ oneDecimal 287 <> oneDecimal (half_up_tenths 23 80).
Proof.
  repeat split; try (vm_compute; reflexivity).
  vm_compute. discriminate.
Qed.

(** ** The scenarios of the specification, evaluated *)

(** A halfway point that is exact in binary64 does round up: 1 of 16 is
    6.25 and is stored as 6.3. *)
Example percentage_exact_tie :
  JS.toFixed1 (percentage 16 (attendance "2025-05-01" 1)) = Some "6.3"
  /\ half_up_tenths 1 16 = 63
  /\ (2000 * 1) mod (2 * 16) = 16
  /\ nearest_tenth (percentage 16 (attendance "2025-05-01" 1)) 63
  /\ ~ nearest_tenth (percentage 16 (attendance "2025-05-01" 1)) 62.
Proof.
  repeat split; try (vm_compute; reflexivity); try (vm_compute; discriminate).
  vm_compute. intros [_ H]. discriminate H.
Qed.

(** Four students, three present on 2025-05-01: one chart point, shown
    as "05-01" with 75.0 percent; clicking it lists three names. *)
Example end_to_end :
  let st := chartDataEffect
              (loaded sampleStudents [ {| date := "2025-05-01"; present := [1; 2; 3] |} ]) in
  processedChartData st
  = [ {| chart_date := "05-01"; originalDate := "2025-05-01";
         attendancePercentage := oneDecimal 750;
         presentStudentIds := [1; 2; 3] |} ]
  /\ JS.toFixed1 (oneDecimal 750) = Some "75.0"
  /\ presentStudentsOnSelectedDate (handleBarClick None 0 st)
     = ["Ann"; "Bob"; "Cy"].
Proof. repeat split; vm_compute; reflexivity. Qed.

(** Selecting a date and then a student keeps both. *)
Example both_selected :
  let p := chartPoint 4 {| date := "2025-05-01"; present := [1; 2; 3] |} in
  let st := handleStudentChange "3" (handleBarClick (clickOn p) 0 sampleState) in
  selectedBarDate st = Some "2025-05-01"
  /\ selectedStudentId st = "3"
  /\ JS.parseInt (selectedStudentId st) = Some 3.
Proof. repeat split. Qed.

(** A present id without a roster record is shown by its fallback label. *)
Example fallback_label :
  presentStudentsOnSelectedDate drilldownState = ["Bob"; "ID: 7"; "ID: 99"].
Proof. reflexivity. Qed.

(* ===================================================================== *)
(** * Further properties: fetching, rendering, interaction *)
(* ===================================================================== *)

(** ** Fetching *)

Lemma chartDataEffect_skip (st : State) :
  allStudents st = [] \/ rawAttendance st = [] -> chartDataEffect st = st.
Proof.
  intros H. unfold chartDataEffect.
  destruct H as [H|H]; rewrite H; simpl; auto. now rewrite andb_false_r.
Qed.

Lemma mounted_initial : mounted = initialState.
Proof. reflexivity. Qed.

(** X1.  Whatever way the two requests end and in whichever order they
    settle, afterwards neither loading flag is set, the roster and the
    logs are the bodies that arrived (still empty for a failed request),
    and [error] is unset exactly when both requests succeeded. *)
Theorem fetches_settle
    (rs : Response (list Student)) (ra : Response (list AttendanceRawData)) :
  let st1 := attendanceFetched ra (studentsFetched rs mounted) in
  let st2 := studentsFetched rs (attendanceFetched ra mounted) in
  (loadingStudents st1 = false /\ loadingAttendance st1 = false
   /\ allStudents st1 = body rs /\ rawAttendance st1 = body ra
   /\ (error st1 = None <-> succeeded rs && succeeded ra = true))
  /\ (loadingStudents st2 = false /\ loadingAttendance st2 = false
      /\ allStudents st2 = body rs /\ rawAttendance st2 = body ra
      /\ (error st2 = None <-> succeeded rs && succeeded ra = true)).
Proof.
  destruct rs as [| | |students], ra as [| | |logs];
    try (destruct students); try (destruct logs);
    cbv zeta; repeat split; try reflexivity; try discriminate.
Qed.

(** X2.  The order in which the two requests settle does not change the
    data: the roster, the logs and the processed chart data are the same
    in both orders.  Only the message can differ: it is that of the
    request that failed last. *)
Theorem fetch_order_irrelevant_for_data
    (rs : Response (list Student)) (ra : Response (list AttendanceRawData)) :
  let st1 := attendanceFetched ra (studentsFetched rs mounted) in
  let st2 := studentsFetched rs (attendanceFetched ra mounted) in
  allStudents st1 = allStudents st2
  /\ rawAttendance st1 = rawAttendance st2
  /\ processedChartData st1 = processedChartData st2
  /\ processedChartData st1
     = (if (0 <? length_of (body rs)) && (0 <? length_of (body ra))
        then chartData (body rs) (body ra) else [])
  /\ error st1
     = (if succeeded ra
        then if succeeded rs then None else Some "Failed to fetch students."
        else Some "Failed to fetch attendance logs.")
  /\ error st2
     = (if succeeded rs
        then if succeeded ra then None else Some "Failed to fetch attendance logs."
        else Some "Failed to fetch students.").
Proof.
  destruct rs as [| | |students], ra as [| | |logs];
    try (destruct students); try (destruct logs);
    cbv zeta; repeat split; reflexivity.
Qed.

(** ** Rendering after the requests *)

Section Screens.

Variable localeCompare : string -> string -> Z.

(** X3.  The loading text is shown until both requests have settled,
    also when the one that settled has failed.  Once both have settled a
    single failure puts the error text on the screen, whatever the other
    request delivered; the page is rendered only when both succeeded. *)
Theorem screen_after_fetches
    (rs : Response (list Student)) (ra : Response (list AttendanceRawData)) :
  let st1 := attendanceFetched ra (studentsFetched rs mounted) in
  let st2 := studentsFetched rs (attendanceFetched ra mounted) in
  render localeCompare mounted = LoadingScreen
  /\ render localeCompare (studentsFetched rs mounted) = LoadingScreen
  /\ render localeCompare (attendanceFetched ra mounted) = LoadingScreen
  /\ render localeCompare st1
     = (if succeeded ra
        then if succeeded rs
             then render localeCompare (chartDataEffect (loaded (body rs) (body ra)))
             else ErrorScreen "Error: Failed to fetch students."
        else ErrorScreen "Error: Failed to fetch attendance logs.")
  /\ render localeCompare st2
     = (if succeeded rs
        then if succeeded ra
             then render localeCompare (chartDataEffect (loaded (body rs) (body ra)))
             else ErrorScreen "Error: Failed to fetch attendance logs."
        else ErrorScreen "Error: Failed to fetch students.")
  /\ (forall students logs,
        exists p, render localeCompare (chartDataEffect (loaded students logs))
                  = PageScreen p).
Proof.
  destruct rs as [| | |students], ra as [| | |logs];
    try (destruct students); try (destruct logs);
    cbv zeta; repeat split; try reflexivity;
    intros students' logs'; unfold render, chartDataEffect;
    destruct ((0 <? length_of (allStudents (loaded students' logs')))
              && (0 <? length_of (rawAttendance (loaded students' logs'))));
    eexists; reflexivity.
Qed.

End Screens.

(** ** The chart *)

Lemma cellFill_unselected (st : State) (p : ProcessedChartDataPoint) :
  selectedBarDate st = None -> cellFill st p = "#8884d8".
Proof. unfold cellFill. now intros ->. Qed.

Lemma chartArea_points (st : State) :
  chartArea st
  = match processedChartData st with
    | [] => None
    | _ => Some (map (fun entry => (entry, cellFill st entry)) (processedChartData st))
    end.
Proof.
  unfold chartArea. destruct (processedChartData st) eqn:E; [reflexivity|].
  replace (0 <? length_of (p :: l)) with true; [reflexivity|].
  symmetry. apply length_of_pos. discriminate.
Qed.

(** X4.  When both requests succeed, the chart has one bar per log
    entry, in the order of the logs and none of them highlighted,
    provided the roster and the logs are both non-empty.  If either is
    empty, logs without a roster included, there is no chart at all and
    "No attendance data available." is shown instead. *)
Theorem chart_after_success
    (students : list Student) (logs : list AttendanceRawData) :
  let st1 := attendanceFetched (Ok logs) (studentsFetched (Ok students) mounted) in
  let st2 := studentsFetched (Ok students) (attendanceFetched (Ok logs) mounted) in
  chartArea st1 = chartArea st2
  /\ (students <> [] -> logs <> [] ->
      chartArea st1
      = Some (map (fun log => (chartPoint (length_of students) log, "#8884d8")) logs))
  /\ (students = [] \/ logs = [] -> chartArea st1 = None).
Proof.
  cbv zeta. split; [|split].
  - destruct students, logs; reflexivity.
  - intros Hs Hl.
    destruct students as [|s students], logs as [|l logs]; try congruence.
    rewrite chartArea_points.
    set (st1 := attendanceFetched (Ok (l :: logs))
                  (studentsFetched (Ok (s :: students)) mounted)).
    change (processedChartData st1)
      with (chartPoint (length_of (s :: students)) l
              :: map (chartPoint (length_of (s :: students))) logs).
    cbv iota. f_equal. cbn [map]. rewrite map_map. reflexivity.
  - intros [->| ->]; [reflexivity|]. destruct students; reflexivity.
Qed.

Lemma chart_after_success_witness :
  chartArea (attendanceFetched (Ok sampleLogs) (studentsFetched (Ok sampleStudents) mounted))
  = Some (map (fun log => (chartPoint 4 log, "#8884d8")) sampleLogs)
  /\ chartArea (attendanceFetched (Ok sampleLogs) (studentsFetched (Ok []) mounted))
     = None.
Proof.
  split.
  - apply (proj1 (proj2 (chart_after_success sampleStudents sampleLogs)));
      discriminate.
  - apply (proj2 (proj2 (chart_after_success [] sampleLogs))). left. reflexivity.
Defined.

(** ** Interaction *)

Lemma handleEvent_same_data (e : UserEvent) (st : State) :
  same_data (handleEvent e st) st.
Proof.
  destruct e as [data index|value]; cbn [handleEvent].
  - rewrite handleBarClick_frame. repeat split.
  - repeat split.
Qed.

Lemma interact_same_data (es : list UserEvent) (st : State) :
  same_data (interact es st) st.
Proof.
  revert st. induction es as [|e es IH]; intros st; cbn [interact fold_left].
  - repeat split.
  - destruct (IH (handleEvent e st)) as (A & B & C & D & E & F).
    destruct (handleEvent_same_data e st) as (A' & B' & C' & D' & E' & F').
    unfold interact in *. repeat split; congruence.
Qed.

Section Interaction.

Variable localeCompare : string -> string -> Z.

(** X5.  No sequence of bar clicks and student choices writes anything
    but the two selections: the roster, the logs, the chart data, the
    loading flags and the error stay as they were, so the screen never
    goes back to the loading or the error text and the bars keep their
    data.  The student selected at the end is the value of the last
    choice. *)
Theorem interaction_preserves_data (es : list UserEvent) (st : State) :
  same_data (interact es st) st
  /\ option_map (map fst) (chartArea (interact es st))
     = option_map (map fst) (chartArea st)
  /\ studentOptions (interact es st) = studentOptions st
  /\ selectedStudentId (interact es st)
     = last_student_change es (selectedStudentId st)
  /\ match render localeCompare st with
     | PageScreen _ => exists p, render localeCompare (interact es st) = PageScreen p
     | other => render localeCompare (interact es st) = other
     end.
Proof.
  pose proof (interact_same_data es st) as Hsame.
  destruct Hsame as (A & B & C & D & E & F).
  split; [repeat split; assumption|].
  split.
  { rewrite !chartArea_points, C.
    destruct (processedChartData st); [reflexivity|].
    cbn [option_map]. rewrite !map_map. reflexivity. }
  split; [unfold studentOptions; now rewrite A|].
  split.
  { clear. revert st. induction es as [|[data index|value] es IH]; intros st;
      cbn [interact fold_left handleEvent last_student_change].
    - reflexivity.
    - unfold interact in IH. rewrite IH. f_equal.
      rewrite handleBarClick_frame. reflexivity.
    - unfold interact in IH. rewrite IH. reflexivity. }
  unfold render. rewrite D, E, F.
  destruct (loadingStudents st || loadingAttendance st); [reflexivity|].
  destruct (error st) as [[|c r]|]; try reflexivity; eexists; reflexivity.
Qed.

End Interaction.

Lemma at_index_In {A : Type} (xs : list A) (index : Z) (x : A) :
  at_index xs index = Some x -> In x xs.
Proof.
  unfold at_index. destruct (index <? 0); [discriminate|]. apply nth_error_In.
Qed.

Lemma handleEvent_selection_in_logs (st0 st : State) (e : UserEvent) :
  incl (map originalDate (processedChartData st0)) (map date (rawAttendance st0)) ->
  same_data st st0 -> chart_click st0 e -> selection_in_logs st ->
  selection_in_logs (handleEvent e st).
Proof.
  intros Hincl (_ & Hraw & Hproc & _) Hclick Hinv.
  assert (Hdate : forall p, In p (processedChartData st0) ->
            exists log, In log (rawAttendance st) /\ Some (originalDate p) = Some (date log)).
  { intros p Hp. rewrite Hraw.
    assert (Hd : In (originalDate p) (map date (rawAttendance st0)))
      by (apply Hincl, in_map; exact Hp).
    apply in_map_iff in Hd as (log & Hl & Hin). exists log. split; congruence. }
  destruct e as [data index|value]; cbn [handleEvent].
  - unfold handleBarClick.
    assert (Hfallback :
      selection_in_logs
        match at_index (processedChartData st) index with
        | Some clickedData => setSelectedBarDate (Some (originalDate clickedData)) st
        | None => st
        end).
    { destruct (at_index (processedChartData st) index) as [p|] eqn:E; [|exact Hinv].
      apply at_index_In in E. rewrite Hproc in E.
      destruct (Hdate p E) as (log & Hl & Hd). right. exists log. auto. }
    destruct data as [[[[|item items]|]]|]; try exact Hfallback.
    cbn [chart_click] in Hclick.
    destruct (Hdate _ Hclick) as (log & Hl & Hd). right. exists log. auto.
  - destruct Hinv as [H|(log & Hl & Hd)]; [left|right; exists log]; auto.
Qed.

(** X6.  Starting with no date selected and chart points whose dates
    are dates of log entries, every sequence of student choices and of
    clicks the chart can deliver leaves the selected date unset or equal
    to the date of a log entry; the by-day lookup then always finds an
    entry. *)
Theorem selected_date_is_a_log_date (es : list UserEvent) (st : State) :
  incl (map originalDate (processedChartData st)) (map date (rawAttendance st)) ->
  selectedBarDate st = None ->
  Forall (chart_click st) es ->
  selectedBarDate (interact es st) = None
  \/ exists log, In log (rawAttendance st)
                 /\ selectedBarDate (interact es st) = Some (date log)
                 /\ List.find (date_is (selectedBarDate (interact es st)))
                              (rawAttendance (interact es st)) <> None.
Proof.
  intros Hincl Hnone Hes.
  assert (Hinv : selection_in_logs (interact es st)).
  { assert (Hgen : forall s, same_data s st -> selection_in_logs s ->
                             selection_in_logs (interact es s)).
    { induction Hes as [|e es He Hes IH]; intros s Hs Hsel; [exact Hsel|].
      cbn [interact fold_left]. apply IH.
      - destruct (handleEvent_same_data e s) as (A & B & C & D & E & F).
        destruct Hs as (A' & B' & C' & D' & E' & F').
        repeat split; congruence.
      - apply (handleEvent_selection_in_logs st); assumption. }
    apply Hgen; [repeat split|left; exact Hnone]. }
  destruct (interact_same_data es st) as (_ & Hraw & _).
  destruct Hinv as [H|(log & Hl & Hd)]; [left; exact H|right].
  exists log. rewrite Hraw in Hl. split; [exact Hl|]. split; [exact Hd|].
  rewrite Hd, Hraw. intros Hfind.
  apply find_none with (x := log) in Hfind; [|exact Hl].
  cbn [date_is] in Hfind. rewrite String.eqb_refl in Hfind. discriminate.
Qed.

Lemma selected_date_is_a_log_date_witness :
  selectedBarDate
    (interact [BarClick None 1; StudentChange "2"; BarClick None 7]
              (chartDataEffect sampleState))
  = Some "2025-05-01".
Proof.
  destruct (selected_date_is_a_log_date
              [BarClick None 1; StudentChange "2"; BarClick None 7]
              (chartDataEffect sampleState))
    as [H|(log & _ & H & _)].
  - intros d Hd. exact Hd.
  - reflexivity.
  - repeat constructor.
  - discriminate H.
  - reflexivity.
Defined.

(** ** Clicking a bar *)

(** X7.  Clicking the bar at an index of the chart, whether the chart
    library passes the point as payload or only the index, highlights
    that bar and with it exactly the bars that carry the same full
    date; every other bar has the plain colour. *)
Theorem clicked_bar_highlighted
    (st : State) (index : Z) (p : ProcessedChartDataPoint) :
  at_index (processedChartData st) index = Some p ->
  let st1 := handleBarClick None index st in
  let st2 := handleBarClick (clickOn p) index st in
  st1 = st2
  /\ chartArea st1
     = Some (map (fun q => (q, if (originalDate q =? originalDate p)%string
                               then "#a78bfa" else "#8884d8"))
                 (processedChartData st))
  /\ In (p, "#a78bfa")
        (map (fun q => (q, cellFill st1 q)) (processedChartData st)).
Proof.
  intros Hat st1 st2.
  assert (E1 : st1 = setSelectedBarDate (Some (originalDate p)) st).
  { unfold st1, handleBarClick. now rewrite Hat. }
  assert (Hin : In p (processedChartData st)) by (eapply at_index_In; eauto).
  split; [rewrite E1; reflexivity|]. split.
  - rewrite chartArea_points, E1. cbn [processedChartData setSelectedBarDate].
    destruct (processedChartData st) as [|q l] eqn:E; [contradiction|].
    reflexivity.
  - apply in_map_iff. exists p. split; [|exact Hin].
    rewrite E1. unfold cellFill. cbn [selectedBarDate setSelectedBarDate].
    now rewrite String.eqb_refl.
Qed.

Lemma clicked_bar_highlighted_witness :
  chartArea (handleBarClick None 1 (chartDataEffect sampleState))
  = Some (map (fun q => (q, if (originalDate q =? "2025-05-01")%string
                            then "#a78bfa" else "#8884d8"))
              (chartData sampleStudents sampleLogs)).
Proof.
  apply (proj1 (proj2 (clicked_bar_highlighted (chartDataEffect sampleState) 1
                         (chartPoint 4 {| date := "2025-05-01"; present := [2; 7; 99] |})
                         eq_refl))).
Defined.

(** X8.  A click that carries no payload selects by position: inside
    the chart data it selects the date of the point at that index,
    below 0 or past the last point it changes nothing.  A click that
    carries a payload ignores the index and the chart data altogether. *)
Theorem bar_click_by_index (st : State) (index : Z)
    (item : PayloadItem) (items : list PayloadItem) :
  (forall data,
     In data [ None; Some {| activePayload := None |};
               Some {| activePayload := Some [] |} ] ->
     (index < 0 \/ length_of (processedChartData st) <= index ->
      handleBarClick data index st = st)
     /\ (0 <= index < length_of (processedChartData st) ->
         exists p, nth_error (processedChartData st) (Z.to_nat index) = Some p
                   /\ handleBarClick data index st
                      = setSelectedBarDate (Some (originalDate p)) st))
  /\ handleBarClick (Some {| activePayload := Some (item :: items) |}) index st
     = setSelectedBarDate (Some (originalDate (payload item))) st.
Proof.
  split; [|reflexivity].
  intros data Hdata.
  assert (E : handleBarClick data index st
              = match at_index (processedChartData st) index with
                | Some clickedData =>
                    setSelectedBarDate (Some (originalDate clickedData)) st
                | None => st
                end).
  { destruct Hdata as [<-|[<-|[<-|[]]]]; reflexivity. }
  rewrite E. unfold at_index, length_of. split.
  - intros [Hneg|Hbig].
    + replace (index <? 0) with true by (symmetry; apply Z.ltb_lt; exact Hneg).
      reflexivity.
    + destruct (index <? 0); [reflexivity|].
      replace (nth_error (processedChartData st) (Z.to_nat index)) with
        (@None ProcessedChartDataPoint); [reflexivity|].
      symmetry. apply nth_error_None. lia.
  - intros [H0 Hlt].
    replace (index <? 0) with false by (symmetry; apply Z.ltb_ge; exact H0).
    destruct (nth_error (processedChartData st) (Z.to_nat index)) as [p|] eqn:En.
    + exists p. auto.
    + apply nth_error_None in En. lia.
Qed.

Lemma bar_click_by_index_witness :
  handleBarClick None 3 (chartDataEffect sampleState) = chartDataEffect sampleState
  /\ handleBarClick None (-1) (chartDataEffect sampleState) = chartDataEffect sampleState
  /\ exists p, nth_error (processedChartData (chartDataEffect sampleState)) 2 = Some p
               /\ handleBarClick None 2 (chartDataEffect sampleState)
                  = setSelectedBarDate (Some (originalDate p)) (chartDataEffect sampleState).
Proof.
  pose (item := {| payload := chartPoint 4 {| date := "2025-05-01"; present := [] |} |}).
  split; [|split].
  - apply (proj1 (bar_click_by_index (chartDataEffect sampleState) 3 item [])
             None (or_introl eq_refl)).
    right. vm_compute. discriminate.
  - apply (proj1 (bar_click_by_index (chartDataEffect sampleState) (-1) item [])
             None (or_introl eq_refl)).
    left. reflexivity.
  - apply (proj1 (bar_click_by_index (chartDataEffect sampleState) 2 item [])
             None (or_introl eq_refl)).
    split; [discriminate|reflexivity].
Defined.

Lemma at_index_chartData (students : list Student)
    (l1 l2 : list AttendanceRawData) (log : AttendanceRawData) :
  at_index (chartData students (l1 ++ log :: l2)) (length_of l1)
  = Some (chartPoint (length_of students) log).
Proof.
  unfold at_index, length_of.
  replace (Z.of_nat (List.length l1) <? 0) with false
    by (symmetry; apply Z.ltb_ge; lia).
  rewrite Nat2Z.id. unfold chartData. rewrite map_app. cbn [map].
  rewrite nth_error_app2 by (rewrite length_map; lia).
  rewrite length_map, Nat.sub_diag. reflexivity.
Qed.

(** X9.  With the chart data computed from the current roster and
    logs, a non-empty roster, and a log entry that is the first with its
    (non-empty) date, clicking the bar at the entry's position selects
    its date; the panel then lists one label per present id of that
    entry, or, when the entry has no present id, the note "No students
    recorded as present" is shown instead. *)
Theorem click_shows_present_students
    (st : State) (l1 l2 : list AttendanceRawData) (log : AttendanceRawData) :
  processedChartData st = chartData (allStudents st) (rawAttendance st) ->
  allStudents st <> [] ->
  rawAttendance st = (l1 ++ log :: l2)%list ->
  (forall r, In r l1 -> date r <> date log) -> date log <> "" ->
  let st' := handleBarClick None (length_of l1) st in
  selectedBarDate st' = Some (date log)
  /\ (present log <> [] ->
      presentPanel st' = Some (map (studentLabel (allStudents st)) (present log))
      /\ nonePresentNote st' = None)
  /\ (present log = [] ->
      presentPanel st' = None /\ nonePresentNote st' = Some (date log)).
Proof.
  intros Hsync Hs Hlogs Hl1 Hne st'.
  assert (E : st' = setSelectedBarDate (Some (date log)) st).
  { unfold st', handleBarClick. rewrite Hsync, Hlogs, at_index_chartData.
    reflexivity. }
  assert (Hview : presentStudentsOnSelectedDate st'
                  = map (studentLabel (allStudents st)) (present log)).
  { rewrite E.
    apply (presentStudents_first_match
             (setSelectedBarDate (Some (date log)) st) (date log) l1 l2 log);
      auto. }
  assert (Htruthy : truthy_date (selectedBarDate st') = Some (date log)).
  { rewrite E. cbn [selectedBarDate setSelectedBarDate].
    destruct (date log); [congruence|reflexivity]. }
  split; [rewrite E; reflexivity|].
  unfold presentPanel, nonePresentNote. rewrite Htruthy, Hview.
  split; intros Hp.
  - destruct (present log) as [|i ids]; [congruence|]. split; reflexivity.
  - rewrite Hp. split; reflexivity.
Qed.

Lemma click_shows_present_students_witness :
  presentPanel (handleBarClick None 1 (chartDataEffect sampleState))
  = Some ["Bob"; "ID: 7"; "ID: 99"]
  /\ nonePresentNote (handleBarClick None 1 (chartDataEffect sampleState)) = None.
Proof.
  apply (proj1 (proj2 (click_shows_present_students (chartDataEffect sampleState)
           [ {| date := "2025-05-03"; present := [1; 3] |} ]
           [ {| date := "2025-05-02"; present := [3; 4] |} ]
           {| date := "2025-05-01"; present := [2; 7; 99] |}
           eq_refl ltac:(discriminate) eq_refl
           ltac:(intros r [<-|[]]; discriminate) ltac:(discriminate)))).
  discriminate.
Defined.

(** ** The two detail areas *)

Section Panels.

Variable localeCompare : string -> string -> Z.

Lemma history_length (st : State) :
  selectedStudentId st <> "" ->
  List.length (studentSpecificAttendanceData localeCompare st)
  = List.length (rawAttendance st).
Proof.
  intros Hsel. unfold studentSpecificAttendanceData.
  apply String.eqb_neq in Hsel. rewrite Hsel. cbn [orb].
  destruct (length_of (rawAttendance st) =? 0) eqn:E.
  - apply length_of_zero in E. now rewrite E.
  - rewrite (Permutation_length (sort_perm _ _)). apply length_map.
Qed.

(** X10.  In each detail area at most one of the two alternatives is
    rendered.  With a truthy selected date it is the list of present
    students when the by-day view is not empty and the note otherwise;
    with the empty string or nothing selected, neither.  With a student
    chosen it is the table, one row per log entry, when there are logs,
    and the note when there are none; with no student chosen, neither. *)
Theorem detail_areas_exclusive (st : State) :
  match truthy_date (selectedBarDate st) with
  | Some d =>
      (presentPanel st = Some (presentStudentsOnSelectedDate st)
       /\ presentStudentsOnSelectedDate st <> [] /\ nonePresentNote st = None)
      \/ (presentPanel st = None
          /\ presentStudentsOnSelectedDate st = [] /\ nonePresentNote st = Some d)
  | None => presentPanel st = None /\ nonePresentNote st = None
  end
  /\ (if (selectedStudentId st =? "")%string
      then historyTable localeCompare st = None
           /\ noHistoryNote localeCompare st = false
      else match rawAttendance st with
           | [] => historyTable localeCompare st = None
                   /\ noHistoryNote localeCompare st = true
           | _ => exists rows,
                    historyTable localeCompare st = Some (historyHeading st, rows)
                    /\ List.length rows = List.length (rawAttendance st)
                    /\ noHistoryNote localeCompare st = false
           end).
Proof.
  split.
  - unfold presentPanel, nonePresentNote.
    destruct (truthy_date (selectedBarDate st)) as [d|]; [|split; reflexivity].
    destruct (presentStudentsOnSelectedDate st) as [|x l]; [right|left].
    + repeat split.
    + repeat split. discriminate.
  - unfold historyTable, noHistoryNote.
    destruct (selectedStudentId st =? "")%string eqn:Esel; [split; reflexivity|].
    apply String.eqb_neq in Esel.
    pose proof (history_length st Esel) as Hlen.
    destruct (rawAttendance st) as [|l logs] eqn:Elogs.
    + destruct (studentSpecificAttendanceData localeCompare st); [|discriminate].
      split; reflexivity.
    + destruct (studentSpecificAttendanceData localeCompare st) as [|r rows] eqn:Eh;
        [discriminate|].
      exists (r :: rows). cbn [negb andb].
      replace (0 <? length_of (r :: rows)) with true
        by (symmetry; apply length_of_pos; discriminate).
      replace (length_of (r :: rows) =? 0) with false
        by (symmetry; apply Z.eqb_neq; unfold length_of; cbn [List.length]; lia).
      repeat split. exact Hlen.
Qed.

End Panels.

(** ** The student [select] *)

Lemma parseInt_no_radix_decimal (z : Z) :
  parseInt_no_radix (JS.decimal z) = Some z.
Proof.
  pose proof (parseInt_decimal z) as H10. revert H10.
  unfold JS.decimal. destruct z as [|p|p]; [reflexivity| |].
  - cbn [Z.to_int NilZero.string_of_int].
    pose proof (Unsigned.to_uint_nonnil p) as Hn.
    destruct (Pos.to_uint p) as [|u|u|u|u|u|u|u|u|u|u]; [congruence| ..];
      try (destruct u as [|u|u|u|u|u|u|u|u|u|u]);
      unfold JS.parseInt, parseInt_no_radix;
      cbn [NilZero.string_of_uint NilEmpty.string_of_uint JS.trim_start];
      (match goal with
       | |- context [JS.is_white_space ?c] =>
           change (JS.is_white_space c) with false
       end); cbv iota;
      match goal with
      | |- context [JS.digits_prefix ?s] =>
          destruct (JS.digits_prefix s) as [[|d ds] rest]
      end; cbn [fst]; try discriminate; intros H; exact H.
  - cbn [Z.to_int NilZero.string_of_int].
    pose proof (Unsigned.to_uint_nonnil p) as Hn.
    unfold JS.parseInt, parseInt_no_radix. cbn [JS.trim_start].
    change (JS.is_white_space "-") with false. cbv iota.
    destruct (Pos.to_uint p) as [|u|u|u|u|u|u|u|u|u|u]; [congruence| ..];
      try (destruct u as [|u|u|u|u|u|u|u|u|u|u]);
      cbn [NilZero.string_of_uint NilEmpty.string_of_uint];
      match goal with
      | |- context [JS.digits_prefix ?s] =>
          destruct (JS.digits_prefix s) as [[|d ds] rest]
      end; cbn [fst]; try discriminate; intros H; exact H.
Qed.

Lemma parseInt_no_radix_toString (z : Z) :
  JS.isSafeInteger z = true -> parseInt_no_radix (JS.toString z) = Some z.
Proof. intros H. rewrite (toString_safe z H). apply parseInt_no_radix_decimal. Qed.

Lemma toString_nonempty (z : Z) :
  JS.isSafeInteger z = true -> JS.toString z <> "".
Proof.
  intros Hz E. pose proof (parseInt_toString z Hz) as H. rewrite E in H. discriminate.
Qed.

(** X11.  Every option of the student [select] other than the
    placeholder belongs to a roster record: its text is the record's
    name and its value is the record's id as a string.  When the id is
    a safe integer (below 2^53 in magnitude) the value is a non-empty
    string that [parseInt] reads back as the id, with radix 10 as the
    history does and without a radix as the table heading does. *)
Theorem select_value_round_trip (st : State) (v t : string) :
  In (v, t) (studentOptions st) ->
  (v = "" /\ t = "-- Select a Student --")
  \/ exists s, In s (allStudents st)
               /\ v = JS.toString (id s) /\ t = name s
               /\ (JS.isSafeInteger (id s) = true ->
                   v <> ""
                   /\ JS.parseInt v = Some (id s)
                   /\ parseInt_no_radix v = Some (id s)).
Proof.
  unfold studentOptions. intros [[= <- <-]|Hin]; [left; auto|right].
  apply in_map_iff in Hin as (s & [= <- <-] & Hs).
  exists s. repeat split; auto.
  - now apply toString_nonempty.
  - now apply parseInt_toString.
  - now apply parseInt_no_radix_toString.
Qed.

Lemma select_value_round_trip_witness :
  ("3" = "" /\ "Cy" = "-- Select a Student --")
  \/ exists s, In s sampleStudents
               /\ "3" = JS.toString (id s) /\ "Cy" = name s
               /\ (JS.isSafeInteger (id s) = true ->
                   "3" <> ""
                   /\ JS.parseInt "3" = Some (id s)
                   /\ parseInt_no_radix "3" = Some (id s)).
Proof.
  apply (select_value_round_trip sampleState "3" "Cy").
  right; right; right. left. reflexivity.
Defined.

(** Beyond the safe integers the round trip is lost: the id 10^21 is
    held as "1e+21", which [parseInt] reads as 1; the id 2^60 is held
    by its shortest digits, which read back as another integer. *)
Example select_value_large_id :
  JS.toString (10 ^ 21) = "1e+21"
  /\ JS.parseInt (JS.toString (10 ^ 21)) = Some 1
  /\ JS.toString (2 ^ 60) = "1152921504606847000"
  /\ JS.parseInt (JS.toString (2 ^ 60)) = Some 1152921504606847000.
Proof. repeat split; vm_compute; reflexivity. Qed.

Lemma find_unique_id (students : list Student) (s : Student) :
  In s students -> NoDup (map id students) ->
  List.find (fun s' => id s' =? id s) students = Some s.
Proof.
  induction students as [|x l IH]; intros Hin Hnd; [contradiction|].
  cbn [List.find map] in *. inversion Hnd as [|? ? Hx Hl]; subst.
  destruct Hin as [->|Hin].
  - now rewrite Z.eqb_refl.
  - destruct (Z.eqb_spec (id x) (id s)) as [E|_]; [|auto].
    exfalso. apply Hx. rewrite E. now apply in_map.
Qed.

(** X12.  After a student whose id is a safe integer, unique in the
    roster, is chosen from the [select], the table heading shows that
    student's name, or "Selected Student" when the name is the empty
    string; the value of a safe integer that matches no roster record
    also gives "Selected Student". *)
Theorem heading_names_chosen_student (st : State) (s : Student) :
  In s (allStudents st) -> NoDup (map id (allStudents st)) ->
  JS.isSafeInteger (id s) = true ->
  historyHeading (handleStudentChange (JS.toString (id s)) st)
  = (if (name s =? "")%string then "Selected Student" else name s)
  /\ forall k, JS.isSafeInteger k = true ->
       (forall s', In s' (allStudents st) -> id s' <> k) ->
       historyHeading (handleStudentChange (JS.toString k) st) = "Selected Student".
Proof.
  intros Hin Hnd Hsafe. unfold historyHeading, handleStudentChange.
  cbn [selectedStudentId allStudents setSelectedStudentId]. split.
  - rewrite (parseInt_no_radix_toString _ Hsafe), (find_unique_id _ s Hin Hnd).
    destruct s as [i [|c r]]; reflexivity.
  - intros k Hsafek Hk. rewrite (parseInt_no_radix_toString _ Hsafek).
    rewrite find_none_iff; [reflexivity|].
    intros s' Hs'. apply Z.eqb_neq. auto.
Qed.

Lemma heading_names_chosen_student_witness :
  historyHeading (handleStudentChange "2" sampleState) = "Bob".
Proof.
  apply (proj1 (heading_names_chosen_student sampleState {| id := 2; name := "Bob" |}
                  ltac:(right; left; reflexivity)
                  ltac:(repeat constructor; simpl; intuition discriminate)
                  ltac:(reflexivity))).
Defined.

(** ** Counting a student's days *)

Lemma filter_length_perm {A : Type} (f : A -> bool) (l l' : list A) :
  Permutation l l' -> List.length (filter f l) = List.length (filter f l').
Proof.
  induction 1 as [|x l l' _ IH|x y l|l l' l'' _ IH1 _ IH2]; cbn [filter].
  - reflexivity.
  - destruct (f x); cbn [List.length]; congruence.
  - destruct (f x), (f y); reflexivity.
  - congruence.
Qed.

Lemma is_present_row_historyRecord (n : option Z) (log : AttendanceRawData) :
  is_present_row (historyRecord n log) = includes (present log) n
  /\ (status (historyRecord n log) =? "Absent")%string
     = negb (includes (present log) n).
Proof.
  unfold is_present_row, historyRecord. cbn [status].
  destruct (includes (present log) n); split; reflexivity.
Qed.

Lemma present_rows_of_logs (k : Z) (logs : list AttendanceRawData) :
  List.length (filter is_present_row (map (historyRecord (Some k)) logs))
  = days_present k logs
  /\ List.length (filter (fun r => (status r =? "Absent")%string)
                         (map (historyRecord (Some k)) logs))
     = (List.length logs - days_present k logs)%nat.
Proof.
  unfold days_present.
  induction logs as [|log logs [IH1 IH2]]; [split; reflexivity|].
  cbn [map filter].
  destruct (is_present_row_historyRecord (Some k) log) as [-> ->].
  cbn [includes].
  pose proof (filter_length_le (fun log0 => existsb (Z.eqb k) (present log0)) logs).
  destruct (existsb (Z.eqb k) (present log)); cbn [negb List.length];
    rewrite ?IH1, ?IH2; split; lia.
Qed.

Section Counting.

Variable localeCompare : string -> string -> Z.

(** X13.  With the [select] holding the value of the id [k], a safe
    integer, the number of "Present" rows of the history is the number
    of log entries whose ids include [k], and all other rows, up to the
    number of log entries, are "Absent": the sort neither loses nor
    duplicates a row. *)
Theorem history_counts_days (st : State) (k : Z) :
  JS.isSafeInteger k = true ->
  selectedStudentId st = JS.toString k ->
  let history := studentSpecificAttendanceData localeCompare st in
  List.length (filter is_present_row history) = days_present k (rawAttendance st)
  /\ List.length (filter (fun r => (status r =? "Absent")%string) history)
     = (List.length (rawAttendance st) - days_present k (rawAttendance st))%nat.
Proof.
  intros Hsafe Hsel history. subst history. unfold studentSpecificAttendanceData.
  rewrite Hsel, (parseInt_toString k Hsafe).
  replace (JS.toString k =? "")%string with false
    by (symmetry; apply String.eqb_neq, toString_nonempty, Hsafe).
  cbn [orb].
  destruct (length_of (rawAttendance st) =? 0) eqn:E.
  - apply length_of_zero in E. rewrite E. split; reflexivity.
  - rewrite !(filter_length_perm _ _ _ (sort_perm _ _)).
    apply present_rows_of_logs.
Qed.

End Counting.

Lemma history_counts_days_witness :
  List.length (filter is_present_row
                 (studentSpecificAttendanceData codeUnitCompare
                    (handleStudentChange "3" sampleState))) = 2%nat.
Proof.
  apply (proj1 (history_counts_days codeUnitCompare
                  (handleStudentChange "3" sampleState) 3 eq_refl eq_refl)).
Defined.

(** ** Stability of the history's order *)

Section Stability.

Context {A : Type} (cmp : A -> A -> Z) (pick : A -> bool).

(** No element is moved past an element of the picked class when it is
    itself in that class. *)
Hypothesis cmp_pick : forall x y, pick x = true -> pick y = true -> ~ 0 < cmp x y.

Lemma insert_filter (x : A) (l : list A) :
  filter pick (JS.insert cmp x l) = filter pick (x :: l).
Proof.
  induction l as [|y l IH]; [reflexivity|].
  cbn [JS.insert]. destruct (0 <? cmp x y) eqn:E; [|reflexivity].
  apply Z.ltb_lt in E. cbn [filter] in *. rewrite IH.
  destruct (pick x) eqn:Px, (pick y) eqn:Py; try reflexivity.
  exfalso. apply (cmp_pick x y); assumption.
Qed.

Lemma sort_filter (l : list A) : filter pick (JS.sort cmp l) = filter pick l.
Proof.
  induction l as [|x l IH]; [reflexivity|].
  cbn [JS.sort fold_right]. fold (JS.sort cmp l).
  rewrite insert_filter. cbn [filter]. now rewrite IH.
Qed.

End Stability.

Section HistoryOrder.

Variable localeCompare : string -> string -> Z.

(** A string does not sort after itself. *)
Hypothesis localeCompare_refl : forall a, localeCompare a a <= 0.

(** X14.  The rows of the history that show the same "MM-DD" are in the
    order of their log entries: the sort is stable, so days of
    different years that share a display date are not swapped. *)
Theorem history_rows_stable (st : State) (d : string) :
  selectedStudentId st <> "" ->
  filter (fun r => (record_date r =? d)%string)
         (studentSpecificAttendanceData localeCompare st)
  = map (historyRecord (JS.parseInt (selectedStudentId st)))
        (filter (fun log => (JS.drop 5 (date log) =? d)%string) (rawAttendance st)).
Proof.
  intros Hsel. unfold studentSpecificAttendanceData.
  apply String.eqb_neq in Hsel. rewrite Hsel. cbn [orb].
  destruct (length_of (rawAttendance st) =? 0) eqn:E.
  { apply length_of_zero in E. now rewrite E. }
  rewrite sort_filter.
  - generalize (rawAttendance st). intros logs.
    induction logs as [|log logs IH]; [reflexivity|].
    cbn [map filter]. cbn [historyRecord record_date].
    rewrite substring_drop. change (Z.to_nat 5) with 5%nat.
    destruct (JS.drop 5 (date log) =? d)%string; cbn [map]; now rewrite IH.
  - intros x y Hx Hy. apply String.eqb_eq in Hx, Hy.
    rewrite Hx, Hy. pose proof (localeCompare_refl d). lia.
Qed.

End HistoryOrder.

Lemma codeUnitCompare_refl (a : string) : codeUnitCompare a a = 0.
Proof.
  unfold codeUnitCompare.
  replace (String.compare a a) with Eq; [reflexivity|].
  induction a as [|c a IH]; [reflexivity|].
  cbn [String.compare]. unfold Ascii.compare. now rewrite N.compare_refl.
Qed.

Lemma history_rows_stable_witness :
  filter (fun r => (record_date r =? "05-01")%string)
         (studentSpecificAttendanceData codeUnitCompare
            (handleStudentChange "1"
               (loaded sampleStudents
                  [ {| date := "2025-05-01"; present := [1] |};
                    {| date := "2024-05-02"; present := [] |};
                    {| date := "2024-05-01"; present := [2] |} ])))
  = [ {| record_date := "05-01"; status := "Present" |};
      {| record_date := "05-01"; status := "Absent" |} ].
Proof.
  apply (history_rows_stable codeUnitCompare).
  - intros a. rewrite codeUnitCompare_refl. lia.
  - discriminate.
Defined.

(** ** The effect and the selections *)

(** X15.  The chart-data effect writes nothing but the chart data, so
    both selections survive it; running it again changes nothing; it
    commutes with a student choice and with a click that carries its
    payload; and both drill-down views are the same before and after
    it, since they read the raw logs and never the chart data. *)
Theorem effect_keeps_selection (localeCompare : string -> string -> Z)
    (st : State) (value : string) (p : ProcessedChartDataPoint) (index : Z) :
  chartDataEffect st = setProcessedChartData (processedChartData (chartDataEffect st)) st
  /\ chartDataEffect (chartDataEffect st) = chartDataEffect st
  /\ chartDataEffect (handleStudentChange value st)
     = handleStudentChange value (chartDataEffect st)
  /\ chartDataEffect (handleBarClick (clickOn p) index st)
     = handleBarClick (clickOn p) index (chartDataEffect st)
  /\ presentStudentsOnSelectedDate (chartDataEffect st)
     = presentStudentsOnSelectedDate st
  /\ studentSpecificAttendanceData localeCompare (chartDataEffect st)
     = studentSpecificAttendanceData localeCompare st.
Proof.
  unfold chartDataEffect, handleStudentChange, handleBarClick, clickOn.
  cbn [allStudents rawAttendance setSelectedStudentId setSelectedBarDate
       setProcessedChartData].
  destruct ((0 <? length_of (allStudents st)) && (0 <? length_of (rawAttendance st)))
    eqn:E; cbn [allStudents rawAttendance setProcessedChartData];
    rewrite ?E; repeat split; destruct st; reflexivity.
Qed.

(** ** More on the percentages *)

Lemma tenths_table_ascending : ascending tenths_table = true.
Proof. vm_compute. reflexivity. Qed.

Lemma tenths_table_stable :
  forallb tenth_stable (map Z.of_nat (seq 0 1001)) = true.
Proof. vm_compute. reflexivity. Qed.

Lemma ascending_nth (l : list JS.double) (i j : nat) (x y : JS.double) :
  ascending l = true -> (i <= j)%nat ->
  nth_error l i = Some x -> nth_error l j = Some y ->
  JS.leb x y = true /\ ((i < j)%nat -> JS.leb y x = false).
Proof.
  revert i j. induction l as [|a l IH]; intros i j Hasc Hij Hi Hj.
  - destruct i; discriminate.
  - cbn [ascending] in Hasc. apply andb_true_iff in Hasc as [Ha Hl].
    apply andb_true_iff in Ha as [Haa Hal].
    destruct i as [|i].
    + injection Hi as <-. destruct j as [|j].
      * injection Hj as <-. split; [exact Haa|lia].
      * rewrite forallb_forall in Hal.
        assert (Hy : In y l) by (eapply nth_error_In; exact Hj).
        apply Hal in Hy. apply andb_true_iff in Hy as [H1 H2].
        split; [exact H1|]. intros _. now apply negb_true_iff.
    + destruct j as [|j]; [lia|].
      destruct (IH i j Hl ltac:(lia) Hi Hj) as [H1 H2].
      split; [exact H1|]. intros. apply H2. lia.
Qed.

Lemma tenths_table_nth (n : Z) :
  0 <= n <= 1000 -> nth_error tenths_table (Z.to_nat n) = Some (oneDecimal n).
Proof.
  intros Hn. unfold tenths_table.
  rewrite nth_error_map, nth_error_seq.
  replace (Z.to_nat n <? 1001)%nat with true by (symmetry; apply Nat.ltb_lt; lia).
  cbn [option_map]. f_equal. f_equal. lia.
Qed.

Lemma oneDecimal_monotone (n1 n2 : Z) :
  0 <= n1 -> n1 <= n2 -> n2 <= 1000 ->
  JS.leb (oneDecimal n1) (oneDecimal n2) = true.
Proof.
  intros H0 H12 H2.
  apply (ascending_nth tenths_table (Z.to_nat n1) (Z.to_nat n2)).
  - exact tenths_table_ascending.
  - lia.
  - apply tenths_table_nth. lia.
  - apply tenths_table_nth. lia.
Qed.

Lemma roundToOneDecimal_tenth (n : Z) :
  0 <= n <= 1000 -> roundToOneDecimal (oneDecimal n) = oneDecimal n.
Proof.
  intros Hn. pose proof tenths_table_stable as H.
  rewrite forallb_forall in H. apply double_eqb_eq. apply H.
  apply in_map_iff. exists (Z.to_nat n). split; [lia|]. apply in_seq. lia.
Qed.

(** The percentage of [P] present out of [R], as a tenth. *)
Lemma percentage_tenths (R : Z) (log : AttendanceRawData) :
  let P := length_of (present log) in
  0 < R -> R < 2 ^ 32 -> P <= R ->
  exists n,
    attendancePercentage (chartPoint R log) = oneDecimal n
    /\ 0 <= n <= 1000
    /\ half_up_tenths P R - 1 <= n <= half_up_tenths P R
    /\ ((2000 * P) mod (2 * R) <> R -> n = half_up_tenths P R).
Proof.
  intros P HR0 HR HPR.
  assert (HP0 : 0 <= P) by (unfold P, length_of; lia).
  cbn [chartPoint attendancePercentage]. unfold percentage. fold P.
  replace (0 <? R) with true by (symmetry; apply Z.ltb_lt; exact HR0).
  destruct (Z.eq_dec P 0) as [E0|N0].
  - rewrite E0. exists 0. rewrite percentage_zero by assumption.
    split; [reflexivity|]. split; [lia|].
    assert (Hk : half_up_tenths 0 R = 0).
    { unfold half_up_tenths. apply div_bounds; lia. }
    rewrite Hk. split; [lia|]. auto.
  - destruct (percentage_finite P R ltac:(lia) HPR HR)
      as (m & e & -> & Hm & He & Hn).
    cbv zeta in Hn. destruct Hn as (Hk & Htie & Hrange).
    destruct (roundToOneDecimal_finite m e Hm He Hrange) as (Hround & _).
    eexists. split; [exact Hround|]. repeat split; try assumption; lia.
Qed.

Lemma oneDecimal_injective (n1 n2 : Z) :
  0 <= n1 <= 1000 -> 0 <= n2 <= 1000 -> oneDecimal n1 = oneDecimal n2 -> n1 = n2.
Proof.
  assert (Hlt : forall a b, 0 <= a -> a < b -> b <= 1000 ->
                            oneDecimal a <> oneDecimal b).
  { intros a b Ha Hab Hb E.
    destruct (ascending_nth tenths_table (Z.to_nat a) (Z.to_nat b)
                (oneDecimal a) (oneDecimal b) tenths_table_ascending)
      as [H1 H2]; try lia; try (apply tenths_table_nth; lia).
    rewrite E in H1. rewrite E in H2. rewrite H2 in H1; [discriminate|lia]. }
  intros H1 H2 E.
  destruct (Z.lt_trichotomy n1 n2) as [L|[Eq|G]]; [|exact Eq|].
  - exfalso. apply (Hlt n1 n2); auto; lia.
  - exfalso. apply (Hlt n2 n1); auto; lia.
Qed.

Lemma half_up_tenths_monotone (P1 P2 R : Z) :
  0 < R -> 0 <= P1 -> P1 <= P2 ->
  half_up_tenths P1 R <= half_up_tenths P2 R
  /\ (P1 < P2 -> (2000 * P2) mod (2 * R) = R ->
      half_up_tenths P1 R <= half_up_tenths P2 R - 1).
Proof.
  intros HR HP1 H12. unfold half_up_tenths. split.
  - apply Z.div_le_mono; lia.
  - intros Hlt Htie.
    pose proof (Z.div_mod (2000 * P2) (2 * R) ltac:(lia)) as Hdm.
    rewrite Htie in Hdm.
    set (q := 2000 * P2 / (2 * R)) in *.
    assert (Hk2 : (2000 * P2 + R) / (2 * R) = q + 1)
      by (apply div_bounds; lia).
    rewrite Hk2.
    assert ((2000 * P1 + R) / (2 * R) < q + 1)
      by (apply Z.div_lt_upper_bound; lia).
    lia.
Qed.

(** X16.  On one roster a day with more present ids never gets a lower
    bar: for [P1 <= P2 <= R] the stored percentage of the first day is
    at most that of the second. *)
Theorem percentage_monotone (students : list Student) (log1 log2 : AttendanceRawData) :
  let R := length_of students in
  0 < R -> R < 2 ^ 32 ->
  length_of (present log1) <= length_of (present log2) ->
  length_of (present log2) <= R ->
  JS.leb (attendancePercentage (chartPoint R log1))
         (attendancePercentage (chartPoint R log2)) = true.
Proof.
  intros R HR0 HR H12 H2R.
  assert (HP1 : 0 <= length_of (present log1)) by (unfold length_of; lia).
  destruct (percentage_tenths R log1 HR0 HR ltac:(lia))
    as (n1 & E1 & Hn1 & Hk1 & _).
  destruct (percentage_tenths R log2 HR0 HR H2R)
    as (n2 & E2 & Hn2 & Hk2 & Htie2).
  destruct (Z.eq_dec (length_of (present log1)) (length_of (present log2)))
    as [Eq|Ne].
  - assert (E : attendancePercentage (chartPoint R log1)
                = attendancePercentage (chartPoint R log2)).
    { cbn [chartPoint attendancePercentage]. unfold percentage. now rewrite Eq. }
    rewrite E, E2. apply oneDecimal_monotone; lia.
  - rewrite E1, E2. apply oneDecimal_monotone; try lia.
    destruct (half_up_tenths_monotone (length_of (present log1))
                (length_of (present log2)) R HR0 HP1 H12) as [Hmono Hstrict].
    destruct (Z.eq_dec ((2000 * length_of (present log2)) mod (2 * R)) R)
      as [Tie|NoTie].
    + specialize (Hstrict ltac:(lia) Tie). lia.
    + specialize (Htie2 NoTie). lia.
Qed.

Lemma percentage_monotone_witness :
  JS.leb (attendancePercentage (chartPoint (length_of (roster 80)) (attendance "2025-05-01" 22)))
         (attendancePercentage (chartPoint (length_of (roster 80)) (attendance "2025-05-02" 23)))
  = true.
Proof.
  apply (percentage_monotone (roster 80) (attendance "2025-05-01" 22)
           (attendance "2025-05-02" 23)).
  - reflexivity.
  - reflexivity.
  - vm_compute. discriminate.
  - vm_compute. discriminate.
Defined.

(** X17.  A day on which every roster student is present is stored as
    exactly 100 and a day without present ids as exactly 0.  For a
    roster of fewer than 2000 students the converse holds too: a bar of
    100 means that as many ids as roster students are present, and a
    bar of 0 that none is. *)
Theorem percentage_extremes (students : list Student) (log : AttendanceRawData) :
  let R := length_of students in
  let P := length_of (present log) in
  0 < R -> R < 2 ^ 32 -> P <= R ->
  (P = R -> attendancePercentage (chartPoint R log) = JS.of_Z 100)
  /\ (P = 0 -> attendancePercentage (chartPoint R log) = JS.of_Z 0)
  /\ (R < 2000 ->
      (attendancePercentage (chartPoint R log) = JS.of_Z 100 -> P = R)
      /\ (attendancePercentage (chartPoint R log) = JS.of_Z 0 -> P = 0)).
Proof.
  intros R P HR0 HR HPR.
  assert (HP0 : 0 <= P) by (unfold P, length_of; lia).
  destruct (percentage_tenths R log HR0 HR HPR) as (n & E & Hn & Hk & Htie).
  fold P in Hk, Htie. rewrite E.
  change (JS.of_Z 100) with (oneDecimal 1000).
  change (JS.of_Z 0) with (oneDecimal 0).
  unfold half_up_tenths in *.
  split; [|split].
  - intros HPeq. f_equal. rewrite HPeq in *.
    assert (Hk1000 : (2000 * R + R) / (2 * R) = 1000) by (apply div_bounds; lia).
    rewrite Hk1000 in *. apply Htie.
    replace (2000 * R) with (0 + 1000 * (2 * R)) by lia.
    rewrite Z.mod_add by lia. rewrite Z.mod_0_l by lia. lia.
  - intros HPeq. f_equal. rewrite HPeq in *.
    assert (Hk0 : (2000 * 0 + R) / (2 * R) = 0) by (apply div_bounds; lia).
    rewrite Hk0 in *. lia.
  - intros Hsmall. split; intros En; apply oneDecimal_injective in En; try lia.
    + subst n.
      assert (Hle : 1000 <= (2000 * P + R) / (2 * R)) by lia.
      pose proof (Z.mul_div_le (2000 * P + R) (2 * R) ltac:(lia)). nia.
    + subst n.
      destruct (Z.eq_dec P 0) as [|Hne]; [assumption|exfalso].
      assert (Hk1 : 1 <= (2000 * P + R) / (2 * R))
        by (apply Z.div_le_lower_bound; lia).
      destruct (Z.eq_dec ((2000 * P) mod (2 * R)) R) as [Tie|NoTie].
      * pose proof (Z.div_mod (2000 * P) (2 * R) ltac:(lia)) as Hdm.
        rewrite Tie in Hdm.
        set (q := 2000 * P / (2 * R)) in *.
        assert (Hq : 0 <= q) by (apply Z.div_pos; lia).
        assert (Hkq : (2000 * P + R) / (2 * R) = q + 1)
          by (apply div_bounds; lia).
        assert (q = 0) by lia. subst q. lia.
      * specialize (Htie NoTie). lia.
Qed.

Lemma percentage_extremes_witness :
  attendancePercentage (chartPoint (length_of sampleStudents) (attendance "2025-05-01" 4))
  = JS.of_Z 100.
Proof.
  apply (proj1 (percentage_extremes sampleStudents (attendance "2025-05-01" 4)
                  ltac:(reflexivity) ltac:(reflexivity) ltac:(discriminate))).
  reflexivity.
Defined.

(** X18.  The stored percentage is a fixed point of the rounding:
    applying [parseFloat(x.toFixed(1))] to it again returns it
    unchanged. *)
Theorem stored_percentage_stable (students : list Student) (log : AttendanceRawData) :
  let R := length_of students in
  0 < R -> R < 2 ^ 32 -> length_of (present log) <= R ->
  roundToOneDecimal (attendancePercentage (chartPoint R log))
  = attendancePercentage (chartPoint R log).
Proof.
  intros R HR0 HR HPR.
  destruct (percentage_tenths R log HR0 HR HPR) as (n & E & Hn & _).
  rewrite E. apply roundToOneDecimal_tenth. exact Hn.
Qed.

Lemma stored_percentage_stable_witness :
  roundToOneDecimal
    (attendancePercentage (chartPoint (length_of (roster 80)) (attendance "2025-05-01" 23)))
  = attendancePercentage (chartPoint (length_of (roster 80)) (attendance "2025-05-01" 23)).
Proof.
  apply (stored_percentage_stable (roster 80) (attendance "2025-05-01" 23)).
  - reflexivity.
  - reflexivity.
  - vm_compute. discriminate.
Defined.

(** With 2001 students a bar of 100 does not mean that all came. *)
Example full_bar_large_roster :
  attendancePercentage (chartPoint 2001 (attendance "2025-05-01" 2000)) = JS.of_Z 100.
Proof. vm_compute. reflexivity. Qed.
